(** * Paginated menu sessions of the destiny and hockey cogs

    A shallow embedding of [destiny/menus.py] and [hockey/menu.py]: the
    page sources, the controls, the three menu views ([Destiny.BaseMenu],
    [Hockey.BaseMenu], [Hockey.GamesMenu]) and the properties of their page
    transitions. *)

From Stdlib Require Import ZArith List String Bool Lia DecimalString.
Import ListNotations.
Open Scope string_scope.
Open Scope list_scope.
Open Scope Z_scope.

Set Implicit Arguments.

(* ===================================================================== *)
(** * Fragments of the Python runtime the menus rely on *)
(* ===================================================================== *)

Module Py.

(** Exceptions that the menu code raises, catches or lets through. *)
Inductive exn : Type :=
| IndexError
| ValueError
| AttributeError
| TypeError
| KeyError
| NoSchedule.

Inductive result (A : Type) : Type :=
| Ok (a : A)
| Raise (e : exn).
Arguments Ok {A} a.
Arguments Raise {A} e.

Definition exn_eqb (a b : exn) : bool :=
  match a, b with
  | IndexError, IndexError | ValueError, ValueError
  | AttributeError, AttributeError | TypeError, TypeError
  | KeyError, KeyError | NoSchedule, NoSchedule => true
  | _, _ => false
  end.

Definition len {A} (l : list A) : Z := Z.of_nat (List.length l).

(** [l[i]]: a negative index counts from the end, anything outside
    [-len, len) raises IndexError. *)
Definition getitem {A} (l : list A) (i : Z) : result A :=
  let j := if i <? 0 then i + len l else i in
  if (j <? 0) || (len l <=? j) then Raise IndexError
  else match nth_error l (Z.to_nat j) with
       | Some x => Ok x
       | None => Raise IndexError
       end.

(** One bound of a slice brought into [0, len]. *)
Definition adjust (n i : Z) : Z :=
  if i <? 0 then Z.max 0 (i + n) else Z.min i n.

(** [l[lo:hi]] with step 1; [None] is an omitted bound. *)
Definition slice {A} (l : list A) (lo hi : option Z) : list A :=
  let start := match lo with None => 0 | Some i => adjust (len l) i end in
  let stop := match hi with None => len l | Some i => adjust (len l) i end in
  firstn (Z.to_nat (stop - start)) (skipn (Z.to_nat start) l).

(** [l.index(x)] for the comparison [eqb] of the elements: the position
    of the first element that compares equal, ValueError when there is
    none. *)
Fixpoint index_from {A} (eqb : A -> A -> bool) (x : A) (l : list A) (k : Z)
  : result Z :=
  match l with
  | [] => Raise ValueError
  | y :: l' => if eqb y x then Ok k else index_from eqb x l' (k + 1)
  end.

Definition index {A} (eqb : A -> A -> bool) (l : list A) (x : A) : result Z :=
  index_from eqb x l 0.

(** [enumerate(l)], counting from [k]. *)
Fixpoint enumerate_from {A} (k : Z) (l : list A) : list (Z * A) :=
  match l with
  | [] => []
  | x :: l' => (k, x) :: enumerate_from (k + 1) l'
  end.

(** [str(n)] for an int. *)
Definition str (n : Z) : string := NilZero.string_of_int (Z.to_int n).

(** [s[:n]] on a string. *)
Definition str_prefix (n : nat) (s : string) : string := substring 0 n s.

End Py.
Import Py.

(* ===================================================================== *)
(** * A state and exception monad for the coroutines

    A coroutine of a view runs on a world (the view object and the
    requests sent to the message sink so far).  An exception leaves the
    mutations done before it in place, so the state is returned in both
    cases. *)
(* ===================================================================== *)

Definition M (W A : Type) : Type := W -> result A * W.

Definition ret {W A} (a : A) : M W A := fun w => (Ok a, w).

Definition raise {W A} (e : exn) : M W A := fun w => (Raise e, w).

Definition bind {W A B} (c : M W A) (k : A -> M W B) : M W B :=
  fun w => match c w with
           | (Ok a, w') => k a w'
           | (Raise e, w') => (Raise e, w')
           end.

Definition gets {W A} (f : W -> A) : M W A := fun w => (Ok (f w), w).

Definition modify {W} (f : W -> W) : M W unit := fun w => (Ok tt, f w).

(** [try: c  except e: h]. *)
Definition try_except {W A} (c : M W A) (e : exn) (h : M W A) : M W A :=
  fun w => match c w with
           | (Raise e', w') => if exn_eqb e' e then h w' else (Raise e', w')
           | r => r
           end.

Declare Scope coro_scope.
Delimit Scope coro_scope with coro.
Notation "x <- c ;; k" := (bind c (fun x => k))
  (at level 100, c at next level, right associativity) : coro_scope.
Notation "c ;;; k" := (bind c (fun _ => k))
  (at level 100, right associativity) : coro_scope.
Open Scope coro_scope.

(* ===================================================================== *)
(** * The parts of discord.py the views use *)
(* ===================================================================== *)

Module Discord.

Record User : Type := { id : Z }.

Record Embed : Type :=
  { title : string;
    description : option string;
    footer : option string }.

Definition option_string_eqb (a b : option string) : bool :=
  match a, b with
  | Some x, Some y => String.eqb x y
  | None, None => true
  | _, _ => false
  end.

(** [Embed.__eq__]: field by field. *)
Definition embed_eqb (a b : Embed) : bool :=
  String.eqb (title a) (title b)
  && option_string_eqb (description a) (description b)
  && option_string_eqb (footer a) (footer b).

Definition set_footer (text : string) (e : Embed) : Embed :=
  {| title := title e; description := description e; footer := Some text |}.

Record SelectOption : Type :=
  { label : string;
    value : Z;
    opt_description : string }.

Record Button : Type := { disabled : bool }.

Record Select : Type :=
  { options : list SelectOption;
    select_disabled : bool }.

(** [discord.ui.Button(style=..., row=...)] and
    [discord.ui.Select(options=...)]: items are created enabled. *)
Definition new_button : Button := {| disabled := false |}.
Definition new_select (opts : list SelectOption) : Select :=
  {| options := opts; select_disabled := false |}.

Definition set_disabled (b : bool) (_ : Button) : Button :=
  {| disabled := b |}.
Definition set_select_disabled (b : bool) (s : Select) : Select :=
  {| options := options s; select_disabled := b |}.

(** A keyword argument of an edit: left out, passed as [None], or
    passed with a value. *)
Inductive Arg (A : Type) : Type :=
| Absent
| IsNone
| Val (a : A).
Arguments Absent {A}.
Arguments IsNone {A}.
Arguments Val {A} a.

Record Kwargs : Type :=
  { content : Arg string;
    embed : Arg Embed }.

Definition no_kwargs : Kwargs := {| content := Absent; embed := Absent |}.

(** The interaction a component callback receives. *)
Record Interaction : Type :=
  { user : User;
    message_id : Z;
    message_flags_ephemeral : bool;
    response_is_done : bool }.

(** The items a view can hold, named after the attribute of the view
    that refers to the item object. *)
Inductive ItemRef : Type :=
| Ref_stop_button
| Ref_first_item
| Ref_back_button
| Ref_forward_button
| Ref_last_item
| Ref_select_view
| Ref_pick_team_button
| Ref_change_date_button
| Ref_heatmap_button
| Ref_gameflow_button.

Definition ref_eqb (a b : ItemRef) : bool :=
  match a, b with
  | Ref_stop_button, Ref_stop_button
  | Ref_first_item, Ref_first_item
  | Ref_back_button, Ref_back_button
  | Ref_forward_button, Ref_forward_button
  | Ref_last_item, Ref_last_item
  | Ref_select_view, Ref_select_view
  | Ref_pick_team_button, Ref_pick_team_button
  | Ref_change_date_button, Ref_change_date_button
  | Ref_heatmap_button, Ref_heatmap_button
  | Ref_gameflow_button, Ref_gameflow_button => true
  | _, _ => false
  end.

(** The navigation items every menu owns.  [children] is the view's
    list of attached items, in the order of [add_item]; the item
    objects themselves are shared with the attributes, so a change of
    [first_item.disabled] shows in the attached item. *)
Record Controls : Type :=
  { first_item : Button;
    last_item : Button;
    back_button : Button;
    forward_button : Button;
    stop_button : Button;
    select_view : option Select;
    children : list ItemRef }.

Definition set_first_item (b : Button) (c : Controls) : Controls :=
  {| first_item := b; last_item := last_item c; back_button := back_button c;
     forward_button := forward_button c; stop_button := stop_button c;
     select_view := select_view c; children := children c |}.
Definition set_last_item (b : Button) (c : Controls) : Controls :=
  {| first_item := first_item c; last_item := b; back_button := back_button c;
     forward_button := forward_button c; stop_button := stop_button c;
     select_view := select_view c; children := children c |}.
Definition set_back_button (b : Button) (c : Controls) : Controls :=
  {| first_item := first_item c; last_item := last_item c; back_button := b;
     forward_button := forward_button c; stop_button := stop_button c;
     select_view := select_view c; children := children c |}.
Definition set_forward_button (b : Button) (c : Controls) : Controls :=
  {| first_item := first_item c; last_item := last_item c;
     back_button := back_button c; forward_button := b;
     stop_button := stop_button c; select_view := select_view c;
     children := children c |}.
Definition set_select_view (s : option Select) (c : Controls) : Controls :=
  {| first_item := first_item c; last_item := last_item c;
     back_button := back_button c; forward_button := forward_button c;
     stop_button := stop_button c; select_view := s;
     children := children c |}.
Definition set_children (l : list ItemRef) (c : Controls) : Controls :=
  {| first_item := first_item c; last_item := last_item c;
     back_button := back_button c; forward_button := forward_button c;
     stop_button := stop_button c; select_view := select_view c;
     children := l |}.

(** [View.add_item]: the item goes to the end of the children. *)
Definition add_item (r : ItemRef) (c : Controls) : Controls :=
  set_children (children c ++ [r]) c.

(** [View.remove_item]: [list.remove] with its ValueError swallowed. *)
Fixpoint remove_first (r : ItemRef) (l : list ItemRef) : list ItemRef :=
  match l with
  | [] => []
  | x :: l' => if ref_eqb x r then l' else x :: remove_first r l'
  end.

Definition remove_item (r : ItemRef) (c : Controls) : Controls :=
  set_children (remove_first r (children c)) c.

(** What a message edit carries for [view=self]: the attached items as
    they are at that moment. *)
Inductive Item : Type :=
| IButton (r : ItemRef) (b : Button)
| ISelect (s : Select).

(** The attached item a reference stands for, among the navigation
    items. *)
Definition item_of (c : Controls) (r : ItemRef) : list Item :=
  match r with
  | Ref_stop_button => [IButton r (stop_button c)]
  | Ref_first_item => [IButton r (first_item c)]
  | Ref_back_button => [IButton r (back_button c)]
  | Ref_forward_button => [IButton r (forward_button c)]
  | Ref_last_item => [IButton r (last_item c)]
  | Ref_select_view =>
      match select_view c with Some s => [ISelect s] | None => [] end
  | _ => []
  end.

(** Requests to the message sink. *)
Inductive Event : Type :=
| ChannelSend (k : Kwargs) (view : list Item)
| FollowupSend (k : Kwargs) (view : list Item)
| ResponseSendMessage (text : string) (ephemeral : bool)
| ResponseEditMessage (k : Kwargs) (view : Arg (list Item))
| FollowupEdit (k : Kwargs) (view : Arg (list Item))
| MessageDelete (message : Z).

Definition is_edit (e : Event) : bool :=
  match e with
  | ResponseEditMessage _ _ | FollowupEdit _ _ => true
  | _ => false
  end.

(** The world a coroutine of a view runs on. *)
Record World (Menu : Type) : Type :=
  { menu : Menu;
    sink : list Event }.

Definition emit {Menu} (e : Event) : M (World Menu) unit :=
  modify (fun w => {| menu := menu w; sink := sink w ++ [e] |}).

Definition update {Menu} (f : Menu -> Menu) : M (World Menu) unit :=
  modify (fun w => {| menu := f (menu w); sink := sink w |}).

Definition not_authorized : string :=
  "You are not authorized to interact with this.".

(** How the view framework runs a component interaction: the item's
    callback runs only when [interaction_check] returned True. *)
Definition scheduled_task {Menu} (check : M (World Menu) bool)
           (callback : M (World Menu) unit) : M (World Menu) unit :=
  allow <- check ;;
  if allow then callback else ret tt.

End Discord.
Import Discord.

(* ===================================================================== *)
(** * Page sources (the vendored menus library) *)
(* ===================================================================== *)

Module Menus.

(** What [format_page] reads of the menu it is given. *)
Record FormatCtx : Type :=
  { ctx_current_page : Z;
    ctx_author : option User }.

(** What [format_page] may return, as [_get_kwargs_from_page] tells the
    cases apart. *)
Inductive Formatted : Type :=
| FDict (k : Kwargs)
| FStr (s : string)
| FEmbed (e : Embed)
| FOther.

(** A page source with state [S] and pages [Page]: the coroutines may
    change the source, the attributes read it.  [select_options] is
    [None] when the source has no such attribute; [page_eqb] is the
    comparison [list.index] applies to two page objects (identity or
    [==]). *)
Class PageSource (S Page : Type) : Type :=
  { get_max_pages : S -> option Z;
    get_page : Z -> S -> result Page * S;
    format_page : FormatCtx -> Page -> S -> result Formatted * S;
    _prepare_once : S -> result unit * S;
    select_options : S -> option (list SelectOption);
    entries : S -> list Page;
    pages : S -> list Page;
    page_eqb : S -> Page -> Page -> bool }.

(** [ListPageSource(entries, per_page=1)]: a page is an entry, fetched
    by list indexing, and there are as many pages as entries. *)
Record ListPageSource {S Page : Type} (Src : PageSource S Page) : Prop :=
  { list_get_page : forall n s, get_page n s = (getitem (entries s) n, s);
    list_max_pages : forall s, get_max_pages s = Some (len (entries s)) }.

(** The sources that keep their entries as [self.pages] too. *)
Record KeepsPages {S Page : Type} (Src : PageSource S Page) : Prop :=
  { pages_entries : forall s, pages s = entries s;
    page_eqb_same : forall s p, page_eqb s p p = true }.

(** [_get_kwargs_from_page] after [format_page]: the isinstance chain.
    No case matching leaves the function without a return value. *)
Definition kwargs_of (v : Formatted) : option Kwargs :=
  match v with
  | FDict k => Some k
  | FStr s => Some {| content := Val s; embed := IsNone |}
  | FEmbed e => Some {| embed := Val e; content := IsNone |}
  | FOther => None
  end.

End Menus.
Import Menus.

(* ===================================================================== *)
(** * destiny/menus.py *)
(* ===================================================================== *)

Module Destiny.

(** ** BaseMenu *)
Section BaseMenu.
Context {S Page : Type} {Src : PageSource S Page}.

(** The attributes of the view that the page transitions read or
    write.  [stopped] is the effect of [View.stop()]. *)
Record BaseMenu : Type :=
  { _source : S;
    current_page : Z;
    author : option User;
    stopped : bool;
    controls : Controls }.

Definition set_source (s : S) (m : BaseMenu) : BaseMenu :=
  {| _source := s; current_page := current_page m; author := author m;
     stopped := stopped m; controls := controls m |}.
Definition set_current_page (n : Z) (m : BaseMenu) : BaseMenu :=
  {| _source := _source m; current_page := n; author := author m;
     stopped := stopped m; controls := controls m |}.
Definition set_author (a : option User) (m : BaseMenu) : BaseMenu :=
  {| _source := _source m; current_page := current_page m; author := a;
     stopped := stopped m; controls := controls m |}.
Definition set_stopped (b : bool) (m : BaseMenu) : BaseMenu :=
  {| _source := _source m; current_page := current_page m;
     author := author m; stopped := b; controls := controls m |}.
Definition set_controls (c : Controls) (m : BaseMenu) : BaseMenu :=
  {| _source := _source m; current_page := current_page m;
     author := author m; stopped := stopped m; controls := c |}.

Definition Coro (A : Type) : Type := M (World BaseMenu) A.

(** A call into the source, which may change it. *)
Definition on_source {A} (f : S -> result A * S) : Coro A :=
  fun w => let (r, s') := f (_source (menu w)) in
           (r, {| menu := set_source s' (menu w); sink := sink w |}).

(** The items of [view=self]. *)
Definition view_of (m : BaseMenu) : list Item :=
  flat_map (item_of (controls m)) (children (controls m)).

Definition has_select_options (m : BaseMenu) : bool :=
  match select_options (_source m) with Some _ => true | None => false end.

(** [_get_select_menu]: the options around [self.current_page] when
    there are more than 25 of them. *)
Definition _get_select_menu (m : BaseMenu) : option Select :=
  match select_options (_source m) with
  | None => None
  | Some opts =>
      let options :=
        if 25 <? len opts then
          let '(minus_diff, plus_diff) :=
            if (12 <? current_page m) && (current_page m <? len opts - 25)
            then (Some (current_page m - 12), Some (current_page m + 13))
            else if len opts - 25 <=? current_page m
                 then (Some (len opts - 25), None)
                 else (None, Some 25) in
          slice opts minus_diff plus_diff
        else slice opts None (Some 25) in
      Some (new_select options)
  end.

(** [self.select_view.disabled = b]. *)
Definition disable_select (b : bool) : Coro unit :=
  m <- gets (@menu _) ;;
  match select_view (controls m) with
  | Some s => update (set_controls
                (set_select_view (Some (set_select_disabled b s))
                                 (controls m)))
  | None => raise AttributeError
  end.

Definition on_controls (f : Controls -> Controls) : Coro unit :=
  update (fun m => set_controls (f (controls m)) m).

Definition check_disabled_buttons : Coro unit :=
  m <- gets (@menu _) ;;
  if len (entries (_source m)) =? 1 then
    on_controls (fun c => set_first_item (set_disabled true (first_item c)) c) ;;;
    on_controls (fun c => set_last_item (set_disabled true (last_item c)) c) ;;;
    on_controls (fun c => set_back_button (set_disabled true (back_button c)) c) ;;;
    on_controls (fun c => set_forward_button (set_disabled true (forward_button c)) c) ;;;
    if has_select_options m then disable_select true else ret tt
  else
    on_controls (fun c => set_first_item (set_disabled false (first_item c)) c) ;;;
    on_controls (fun c => set_last_item (set_disabled false (last_item c)) c) ;;;
    on_controls (fun c => set_back_button (set_disabled false (back_button c)) c) ;;;
    on_controls (fun c => set_forward_button (set_disabled false (forward_button c)) c) ;;;
    if has_select_options m then disable_select false else ret tt.

Definition _get_kwargs_from_page (page : Page) : Coro (option Kwargs) :=
  m <- gets (@menu _) ;;
  value <- on_source (format_page
             {| ctx_current_page := current_page m;
                ctx_author := author m |} page) ;;
  check_disabled_buttons ;;;
  ret (kwargs_of value).

(** [interaction.response.edit_message] with the keyword arguments of
    the page and [view=self]; unpacking [None] is a TypeError. *)
Definition edit_message (kwargs : option Kwargs) : Coro unit :=
  match kwargs with
  | None => raise TypeError
  | Some k => m <- gets (@menu _) ;;
              emit (ResponseEditMessage k (Val (view_of m)))
  end.

Definition show_page (page_number : Z) (interaction : Interaction)
  : Coro unit :=
  page <- on_source (get_page page_number) ;;
  m <- gets (@menu _) ;;
  (if has_select_options m && (12 <=? page_number) then
     on_controls (remove_item Ref_select_view) ;;;
     match _get_select_menu m with
     | Some s => on_controls (set_select_view (Some s)) ;;;
                 on_controls (add_item Ref_select_view)
     | None => on_controls (set_select_view None) ;;; raise TypeError
     end
   else ret tt) ;;;
  m <- gets (@menu _) ;;
  match index (page_eqb (_source m)) (pages (_source m)) page with
  | Raise e => raise e
  | Ok i =>
      update (set_current_page i) ;;;
      kwargs <- _get_kwargs_from_page page ;;
      edit_message kwargs
  end.

Definition show_checked_page (page_number : Z) (interaction : Interaction)
  : Coro unit :=
  m <- gets (@menu _) ;;
  let max_pages := get_max_pages (_source m) in
  try_except
    (match max_pages with
     | None => show_page page_number interaction
     | Some max_pages =>
         if max_pages <=? page_number then show_page 0 interaction
         else if page_number <? 0 then show_page (max_pages - 1) interaction
         else if (page_number <? max_pages) && (0 <=? page_number)
              then show_page page_number interaction
              else ret tt
     end)
    IndexError (ret tt).

Definition interaction_check (interaction : Interaction) : Coro bool :=
  m <- gets (@menu _) ;;
  match author m with
  | None => raise AttributeError
  | Some a =>
      if negb (id (user interaction) =? id a) then
        emit (ResponseSendMessage not_authorized true) ;;;
        ret false
      else ret true
  end.

(** ** The callbacks of the items *)

Definition StopButton_callback (interaction : Interaction) : Coro unit :=
  update (set_stopped true) ;;;
  if message_flags_ephemeral interaction then
    emit (ResponseEditMessage no_kwargs IsNone)
  else emit (MessageDelete (message_id interaction)).

Definition ForwardButton_callback (interaction : Interaction) : Coro unit :=
  m <- gets (@menu _) ;;
  show_checked_page (current_page m + 1) interaction.

Definition BackButton_callback (interaction : Interaction) : Coro unit :=
  m <- gets (@menu _) ;;
  show_checked_page (current_page m - 1) interaction.

Definition LastItemButton_callback (interaction : Interaction) : Coro unit :=
  m <- gets (@menu _) ;;
  match get_max_pages (_source m) with
  | None => raise TypeError
  | Some max_pages => show_page (max_pages - 1) interaction
  end.

Definition FirstItemButton_callback (interaction : Interaction) : Coro unit :=
  show_page 0 interaction.

Definition DestinySelect_callback (index : Z) (interaction : Interaction)
  : Coro unit :=
  show_checked_page index interaction.

(** [BaseMenu(source, cog, page_start=...)]. *)
Definition BaseMenu__init__ (source : S) (page_start : Z) : BaseMenu :=
  let m0 :=
    {| _source := source;
       current_page := page_start;
       author := None;
       stopped := false;
       controls :=
         {| first_item := new_button; last_item := new_button;
            back_button := new_button; forward_button := new_button;
            stop_button := new_button; select_view := None;
            children := [Ref_stop_button; Ref_first_item; Ref_back_button;
                         Ref_forward_button; Ref_last_item] |} |} in
  if has_select_options m0 then
    set_controls (add_item Ref_select_view
                    (set_select_view (_get_select_menu m0) (controls m0))) m0
  else m0.

(** [send_initial_message], for the author of the invoking context. *)
Definition send_initial_message (ctx_author : User) : Coro unit :=
  m <- gets (@menu _) ;;
  page <- on_source (get_page (current_page m)) ;;
  kwargs <- _get_kwargs_from_page page ;;
  match kwargs with
  | None => raise TypeError
  | Some k =>
      m <- gets (@menu _) ;;
      emit (ChannelSend k (view_of m)) ;;;
      update (set_author (Some ctx_author))
  end.

End BaseMenu.
Arguments BaseMenu S : clear implicits.

(** ** BasePages *)

(** The pages of a [BasePages] are embed objects that [format_page]
    changes in place.  [heap] holds the state of the embeds and a page is
    a reference into it, so that a footer shows wherever the embed is
    listed. *)
Module BasePages.

Record BasePages : Type :=
  { heap : list Embed;
    pages : list nat;
    select_options : list SelectOption }.

Definition deref (h : list Embed) (page : nat) : Embed :=
  nth page h {| title := ""; description := None; footer := None |}.

Fixpoint store (page : nat) (e : Embed) (h : list Embed) : list Embed :=
  match h, page with
  | [], _ => []
  | _ :: h', O => e :: h'
  | x :: h', Datatypes.S page' => x :: store page' e h'
  end.

(** [BasePages(pages)], for the embeds [heap] that [pages] refers to. *)
Definition __init__ (heap : list Embed) (pages : list nat) : BasePages :=
  {| heap := heap;
     pages := pages;
     select_options :=
       map (fun cp : Z * nat =>
              let (count, page) := cp in
              {| label := ("Page " ++ str (count + 1))%string;
                 value := count;
                 opt_description := str_prefix 50 (title (deref heap page)) |})
           (enumerate_from 0 pages) |}.

Definition get_max_pages (self : BasePages) : option Z :=
  Some (len (pages self)).

Definition get_page (page_number : Z) (self : BasePages)
  : result nat * BasePages :=
  (getitem (pages self) page_number, self).

Definition format_page (menu : FormatCtx) (page : nat) (self : BasePages)
  : result Formatted * BasePages :=
  match get_max_pages self with
  | None => (Raise TypeError, self)
  | Some max_pages =>
      let text := ("Page " ++ str (ctx_current_page menu + 1) ++ "/"
                     ++ str max_pages)%string in
      let e := set_footer text (deref (heap self) page) in
      (Ok (FEmbed e),
       {| heap := store page e (heap self);
          pages := pages self;
          select_options := select_options self |})
  end.

(** Two listed pages compare equal when they are the same embed or
    equal embeds. *)
Definition page_eqb (self : BasePages) (p q : nat) : bool :=
  Nat.eqb p q || embed_eqb (deref (heap self) p) (deref (heap self) q).

#[export] Instance source : PageSource BasePages nat :=
  {| Menus.get_max_pages := get_max_pages;
     Menus.get_page := get_page;
     Menus.format_page := format_page;
     Menus._prepare_once := fun self => (Ok tt, self);
     Menus.select_options := fun self => Some (select_options self);
     Menus.entries := pages;
     Menus.pages := pages;
     Menus.page_eqb := page_eqb |}.

End BasePages.

End Destiny.

(* ===================================================================== *)
(** * hockey/menu.py *)
(* ===================================================================== *)

Module Hockey.

(** ** BaseMenu *)
Section BaseMenu.
Context {S Page : Type} {Src : PageSource S Page}.

Record BaseMenu : Type :=
  { _source : S;
    page_start : Z;
    current_page : Z;
    author : option User;
    message : option Z;
    stopped : bool;
    controls : Controls }.

Definition set_source (s : S) (m : BaseMenu) : BaseMenu :=
  {| _source := s; page_start := page_start m;
     current_page := current_page m; author := author m;
     message := message m; stopped := stopped m; controls := controls m |}.
Definition set_current_page (n : Z) (m : BaseMenu) : BaseMenu :=
  {| _source := _source m; page_start := page_start m; current_page := n;
     author := author m; message := message m; stopped := stopped m;
     controls := controls m |}.
Definition set_author (a : option User) (m : BaseMenu) : BaseMenu :=
  {| _source := _source m; page_start := page_start m;
     current_page := current_page m; author := a; message := message m;
     stopped := stopped m; controls := controls m |}.
Definition set_message (i : option Z) (m : BaseMenu) : BaseMenu :=
  {| _source := _source m; page_start := page_start m;
     current_page := current_page m; author := author m; message := i;
     stopped := stopped m; controls := controls m |}.
Definition set_stopped (b : bool) (m : BaseMenu) : BaseMenu :=
  {| _source := _source m; page_start := page_start m;
     current_page := current_page m; author := author m;
     message := message m; stopped := b; controls := controls m |}.
Definition set_controls (c : Controls) (m : BaseMenu) : BaseMenu :=
  {| _source := _source m; page_start := page_start m;
     current_page := current_page m; author := author m;
     message := message m; stopped := stopped m; controls := c |}.

Definition Coro (A : Type) : Type := M (World BaseMenu) A.

Definition on_source {A} (f : S -> result A * S) : Coro A :=
  fun w => let (r, s') := f (_source (menu w)) in
           (r, {| menu := set_source s' (menu w); sink := sink w |}).

Definition on_controls (f : Controls -> Controls) : Coro unit :=
  update (fun m => set_controls (f (controls m)) m).

Definition view_of (m : BaseMenu) : list Item :=
  flat_map (item_of (controls m)) (children (controls m)).

Definition _get_kwargs_from_page (page : Page) : Coro (option Kwargs) :=
  m <- gets (@menu _) ;;
  value <- on_source (format_page
             {| ctx_current_page := current_page m;
                ctx_author := author m |} page) ;;
  ret (kwargs_of value).

Definition update_select_view (page_number : Z) : Coro unit :=
  m <- gets (@menu _) ;;
  (match select_view (controls m) with
   | Some _ => on_controls (remove_item Ref_select_view)
   | None => ret tt
   end) ;;;
  match select_options (_source m) with
  | None => ret tt
  | Some opts =>
      let options := slice opts None (Some 25) in
      let options :=
        if 12 <=? page_number
        then slice opts (Some (page_number - 12)) (Some (page_number + 13))
        else options in
      on_controls (set_select_view (Some (new_select options))) ;;;
      on_controls (add_item Ref_select_view)
  end.

(** The edit of the menu message with the keyword arguments of the
    page and [view=self], through the follow-up webhook when the
    interaction was already answered. *)
Definition edit (kwargs : option Kwargs) (interaction : Interaction)
  : Coro unit :=
  match kwargs with
  | None => raise TypeError
  | Some k =>
      m <- gets (@menu _) ;;
      if response_is_done interaction
      then emit (FollowupEdit k (Val (view_of m)))
      else emit (ResponseEditMessage k (Val (view_of m)))
  end.

Definition show_page (page_number : Z) (interaction : Interaction)
  : Coro unit :=
  page <- on_source (get_page page_number) ;;
  update (set_current_page page_number) ;;;
  kwargs <- _get_kwargs_from_page page ;;
  update_select_view page_number ;;;
  edit kwargs interaction.

Definition show_checked_page (page_number : Z) (interaction : Interaction)
  : Coro unit :=
  m <- gets (@menu _) ;;
  let max_pages := get_max_pages (_source m) in
  try_except
    (match max_pages with
     | None => show_page page_number interaction
     | Some max_pages =>
         if max_pages <=? page_number then show_page 0 interaction
         else if page_number <? 0 then show_page (max_pages - 1) interaction
         else if (page_number <? max_pages) && (0 <=? page_number)
              then show_page page_number interaction
              else ret tt
     end)
    IndexError (ret tt).

Definition interaction_check (interaction : Interaction) : Coro bool :=
  m <- gets (@menu _) ;;
  match author m with
  | Some a =>
      if negb (id (user interaction) =? id a) then
        emit (ResponseSendMessage not_authorized true) ;;;
        ret false
      else ret true
  | None => ret true
  end.

Definition StopButton_callback (interaction : Interaction) : Coro unit :=
  update (set_stopped true) ;;;
  m <- gets (@menu _) ;;
  match message m with
  | None => raise AttributeError
  | Some i => emit (MessageDelete i)
  end.

Definition ForwardButton_callback (interaction : Interaction) : Coro unit :=
  m <- gets (@menu _) ;;
  show_checked_page (current_page m + 1) interaction.

Definition BackButton_callback (interaction : Interaction) : Coro unit :=
  m <- gets (@menu _) ;;
  show_checked_page (current_page m - 1) interaction.

Definition LastItemButton_callback (interaction : Interaction) : Coro unit :=
  m <- gets (@menu _) ;;
  match get_max_pages (_source m) with
  | None => raise TypeError
  | Some max_pages => show_page (max_pages - 1) interaction
  end.

Definition FirstItemButton_callback (interaction : Interaction) : Coro unit :=
  show_page 0 interaction.

(** [HockeySelectPlayer.callback] for the chosen value. *)
Definition HockeySelectPlayer_callback (player_id : Page)
           (interaction : Interaction) : Coro unit :=
  m <- gets (@menu _) ;;
  match index (page_eqb (_source m)) (pages (_source m)) player_id with
  | Raise e => raise e
  | Ok i => show_page i interaction
  end.

(** [BaseMenu(source, cog, page_start=...)]. *)
Definition BaseMenu__init__ (source : S) (page_start : Z) : BaseMenu :=
  let c :=
    {| first_item := new_button; last_item := new_button;
       back_button := new_button; forward_button := new_button;
       stop_button := new_button; select_view := None;
       children := [Ref_first_item; Ref_back_button; Ref_forward_button;
                    Ref_last_item; Ref_stop_button] |} in
  {| _source := source;
     page_start := page_start;
     current_page := page_start;
     author := None;
     message := None;
     stopped := false;
     controls :=
       match select_options source with
       | Some opts =>
           add_item Ref_select_view
             (set_select_view
                (Some (new_select (slice opts None (Some 25)))) c)
       | None => c
       end |}.

(** [start] with [send_initial_message]: [is_slash] tells an
    interaction from a command context, [sent] is the message the
    sink hands back. *)
Definition send_initial_message (ctx_author : User) (is_slash : bool)
  : Coro unit :=
  m <- gets (@menu _) ;;
  page <- on_source (get_page (page_start m)) ;;
  kwargs <- _get_kwargs_from_page page ;;
  update (set_author (Some ctx_author)) ;;;
  match kwargs with
  | None => raise TypeError
  | Some k =>
      m <- gets (@menu _) ;;
      if is_slash then emit (FollowupSend k (view_of m))
      else emit (ChannelSend k (view_of m))
  end.

Definition start (ctx_author : User) (is_slash : bool) (sent : Z)
  : Coro unit :=
  on_source _prepare_once ;;;
  send_initial_message ctx_author is_slash ;;;
  update (set_message (Some sent)).

End BaseMenu.
Arguments BaseMenu S : clear implicits.

(** ** PlayerPages *)

Module PlayerPages.
Section PlayerPages.

(** The embed of a player's statistics in a season, as
    [Player.from_id], [get_full_stats] and [get_embed] produce it. *)
Variable player_embed : Z -> string -> result Embed.

Record PlayerPages : Type :=
  { pages : list Z;
    players : list (Z * string);
    season : string;
    select_options : list SelectOption }.

(** [self.players[player_id]["fullName"]]. *)
Fixpoint fullName (players : list (Z * string)) (player_id : Z)
  : result string :=
  match players with
  | [] => Raise KeyError
  | (k, name) :: players' =>
      if k =? player_id then Ok name else fullName players' player_id
  end.

Fixpoint build_options (players : list (Z * string)) (l : list (Z * Z))
  : result (list SelectOption) :=
  match l with
  | [] => Ok []
  | (count, player_id) :: l' =>
      match fullName players player_id with
      | Raise e => Raise e
      | Ok player_name =>
          match build_options players l' with
          | Raise e => Raise e
          | Ok rest =>
              Ok ({| label := ("Page " ++ str (count + 1))%string;
                     opt_description := str_prefix 50 player_name;
                     value := player_id |} :: rest)
          end
      end
  end.

(** [PlayerPages(pages, season, players)]. *)
Definition __init__ (pages : list Z) (season : string)
           (players : list (Z * string)) : result PlayerPages :=
  match build_options players (enumerate_from 0 pages) with
  | Raise e => Raise e
  | Ok opts => Ok {| pages := pages; players := players; season := season;
                     select_options := opts |}
  end.

Definition get_max_pages (self : PlayerPages) : option Z :=
  Some (len (pages self)).

Definition get_page (page_number : Z) (self : PlayerPages)
  : result Z * PlayerPages :=
  (getitem (pages self) page_number, self).

Definition format_page (view : FormatCtx) (page : Z) (self : PlayerPages)
  : result Formatted * PlayerPages :=
  match player_embed page (season self) with
  | Raise e => (Raise e, self)
  | Ok em =>
      match get_max_pages self with
      | None => (Raise TypeError, self)
      | Some max_pages =>
          (Ok (FEmbed (set_footer
                 ("Page " ++ str (ctx_current_page view + 1) ++ "/"
                    ++ str max_pages)%string em)), self)
      end
  end.

Definition source : PageSource PlayerPages Z :=
  {| Menus.get_max_pages := get_max_pages;
     Menus.get_page := get_page;
     Menus.format_page := format_page;
     Menus._prepare_once := fun self => (Ok tt, self);
     Menus.select_options := fun self => Some (select_options self);
     Menus.entries := pages;
     Menus.pages := pages;
     Menus.page_eqb := fun _ => Z.eqb |}.

End PlayerPages.
End PlayerPages.

(** ** GamesMenu *)

(** What [GamesMenu] uses of its source, the schedule of
    [hockey/schedule.py]: [get_page] with its keyword arguments
    [skip_next], [skip_prev] and [game_id], the filter attributes read
    by [format_error], and whether the source is a [Schedule]. *)
Module Schedule.
Class Source (S Page : Type) : Type :=
  { get_page : Z -> bool -> bool -> option Z -> S -> result Page * S;
    format_page : FormatCtx -> Page -> S -> result Formatted * S;
    _prepare_once : S -> result unit * S;
    select_options : S -> option (list SelectOption);
    team : S -> list string;
    _last_searched : S -> string;
    is_Schedule : S -> bool }.
End Schedule.

Module Games.
Section GamesMenu.
Context {S Page : Type} {Src : Schedule.Source S Page}.

(** [humanize_list] of the bot framework. *)
Variable humanize_list : list string -> string.

Record GamesMenu : Type :=
  { source : S;
    current_page : Z;
    author : option User;
    message : option Z;
    stopped : bool;
    controls : Controls;
    pick_team_button : Button;
    change_date_button : Button;
    heatmap_button : Button;
    gameflow_button : Button }.

Definition set_source (s : S) (m : GamesMenu) : GamesMenu :=
  {| source := s; current_page := current_page m;
     author := author m; message := message m;
     stopped := stopped m; controls := controls m;
     pick_team_button := pick_team_button m;
     change_date_button := change_date_button m;
     heatmap_button := heatmap_button m;
     gameflow_button := gameflow_button m |}.
Definition set_current_page (n : Z) (m : GamesMenu) : GamesMenu :=
  {| source := source m; current_page := n;
     author := author m; message := message m;
     stopped := stopped m; controls := controls m;
     pick_team_button := pick_team_button m;
     change_date_button := change_date_button m;
     heatmap_button := heatmap_button m;
     gameflow_button := gameflow_button m |}.
Definition set_author (a : option User) (m : GamesMenu) : GamesMenu :=
  {| source := source m; current_page := current_page m;
     author := a; message := message m;
     stopped := stopped m; controls := controls m;
     pick_team_button := pick_team_button m;
     change_date_button := change_date_button m;
     heatmap_button := heatmap_button m;
     gameflow_button := gameflow_button m |}.
Definition set_message (i : option Z) (m : GamesMenu) : GamesMenu :=
  {| source := source m; current_page := current_page m;
     author := author m; message := i;
     stopped := stopped m; controls := controls m;
     pick_team_button := pick_team_button m;
     change_date_button := change_date_button m;
     heatmap_button := heatmap_button m;
     gameflow_button := gameflow_button m |}.
Definition set_stopped (b : bool) (m : GamesMenu) : GamesMenu :=
  {| source := source m; current_page := current_page m;
     author := author m; message := message m;
     stopped := b; controls := controls m;
     pick_team_button := pick_team_button m;
     change_date_button := change_date_button m;
     heatmap_button := heatmap_button m;
     gameflow_button := gameflow_button m |}.
Definition set_controls (c : Controls) (m : GamesMenu) : GamesMenu :=
  {| source := source m; current_page := current_page m;
     author := author m; message := message m;
     stopped := stopped m; controls := c;
     pick_team_button := pick_team_button m;
     change_date_button := change_date_button m;
     heatmap_button := heatmap_button m;
     gameflow_button := gameflow_button m |}.

Definition Coro (A : Type) : Type := M (World GamesMenu) A.

Definition on_source {A} (f : S -> result A * S) : Coro A :=
  fun w => let (r, s') := f (source (menu w)) in
           (r, {| menu := set_source s' (menu w); sink := sink w |}).

Definition on_controls (f : Controls -> Controls) : Coro unit :=
  update (fun m => set_controls (f (controls m)) m).

(** The items of [view=self]. *)
Definition games_item_of (m : GamesMenu) (r : ItemRef) : list Item :=
  match r with
  | Ref_pick_team_button => [IButton r (pick_team_button m)]
  | Ref_change_date_button => [IButton r (change_date_button m)]
  | Ref_heatmap_button => [IButton r (heatmap_button m)]
  | Ref_gameflow_button => [IButton r (gameflow_button m)]
  | _ => item_of (controls m) r
  end.

Definition view_of (m : GamesMenu) : list Item :=
  flat_map (games_item_of m) (children (controls m)).

(** [hasattr(self.source, "select_options") and
    len(self.source.select_options) > 1]. *)
Definition several_options (m : GamesMenu) : option (list SelectOption) :=
  match Schedule.select_options (source m) with
  | Some opts => if 1 <? len opts then Some opts else None
  | None => None
  end.

Definition format_error (m : GamesMenu) : string :=
  let team :=
    match Schedule.team (source m) with
    | [] => ""
    | _ :: _ =>
        ("for " ++ humanize_list (Schedule.team (source m)) ++ " ")%string
    end in
  ("No schedule could be found " ++ team ++ "in dates between "
     ++ Schedule._last_searched (source m))%string.

Definition _get_kwargs_from_page (page : Page) : Coro (option Kwargs) :=
  m <- gets (@menu _) ;;
  value <- on_source (Schedule.format_page
             {| ctx_current_page := current_page m;
                ctx_author := author m |} page) ;;
  ret (kwargs_of value).

(** The edit of the menu message with [view=self], through the
    follow-up webhook when the interaction was already answered. *)
Definition edit (k : Kwargs) (interaction : Interaction) : Coro unit :=
  m <- gets (@menu _) ;;
  if response_is_done interaction
  then emit (FollowupEdit k (Val (view_of m)))
  else emit (ResponseEditMessage k (Val (view_of m))).

Definition show_page (page_number : Z) (interaction : Interaction)
           (skip_next skip_prev : bool) (game_id : option Z) : Coro unit :=
  r <- try_except
         (page <- on_source
                    (Schedule.get_page page_number skip_next skip_prev game_id) ;;
          ret (Some page))
         NoSchedule
         (m <- gets (@menu _) ;;
          edit {| content := Val (format_error m); embed := IsNone |}
               interaction ;;;
          ret None) ;;
  match r with
  | None => ret tt
  | Some page =>
      m <- gets (@menu _) ;;
      (match several_options m with
       | Some opts =>
           (match select_view (controls m) with
            | Some _ => on_controls (remove_item Ref_select_view)
            | None => ret tt
            end) ;;;
           (if 12 <=? page_number then
              on_controls (set_select_view (Some (new_select
                (slice opts (Some (page_number - 12))
                       (Some (page_number + 13))))))
            else
              on_controls (set_select_view (Some (new_select
                (slice opts None (Some 25)))))) ;;;
           on_controls (add_item Ref_select_view)
       | None => ret tt
       end) ;;;
      update (set_current_page page_number) ;;;
      kwargs <- _get_kwargs_from_page page ;;
      match kwargs with
      | None => raise TypeError
      | Some k => edit k interaction
      end
  end.

Definition show_checked_page (page_number : Z) (interaction : Interaction)
  : Coro unit :=
  try_except (show_page page_number interaction false false None)
             IndexError (ret tt).

Definition interaction_check (interaction : Interaction) : Coro bool :=
  m <- gets (@menu _) ;;
  match author m with
  | Some a =>
      if negb (id (user interaction) =? id a) then
        emit (ResponseSendMessage not_authorized true) ;;;
        ret false
      else ret true
  | None => ret true
  end.

Definition StopButton_callback (interaction : Interaction) : Coro unit :=
  update (set_stopped true) ;;;
  m <- gets (@menu _) ;;
  match message m with
  | None => raise AttributeError
  | Some i => emit (MessageDelete i)
  end.

Definition ForwardButton_callback (interaction : Interaction) : Coro unit :=
  m <- gets (@menu _) ;;
  show_checked_page (current_page m + 1) interaction.

Definition BackButton_callback (interaction : Interaction) : Coro unit :=
  m <- gets (@menu _) ;;
  show_checked_page (current_page m - 1) interaction.

Definition SkipForwardButton_callback (interaction : Interaction) : Coro unit :=
  show_page 0 interaction true false None.

Definition SkipBackButton_callback (interaction : Interaction) : Coro unit :=
  show_page 0 interaction false true None.

Definition HockeySelectGame_callback (game_id : Z) (interaction : Interaction)
  : Coro unit :=
  show_page 0 interaction false false (Some game_id).

(** [GamesMenu(source, cog)]. *)
Definition GamesMenu__init__ (source : S) : GamesMenu :=
  let c :=
    {| first_item := new_button; last_item := new_button;
       back_button := new_button; forward_button := new_button;
       stop_button := new_button; select_view := None;
       children := [Ref_first_item; Ref_back_button; Ref_forward_button;
                    Ref_last_item; Ref_stop_button; Ref_pick_team_button;
                    Ref_change_date_button] |} in
  {| source := source;
     current_page := 0;
     author := None;
     message := None;
     stopped := false;
     controls :=
       if Schedule.is_Schedule source
       then add_item Ref_gameflow_button (add_item Ref_heatmap_button c)
       else c;
     pick_team_button := new_button;
     change_date_button := new_button;
     heatmap_button := new_button;
     gameflow_button := new_button |}.

(** [send_initial_message]: the first page, or the error text when
    there is none.  The result tells whether a message came back as
    [self.message]. *)
Definition send_initial_message (ctx_author : User) (is_slash : bool)
  : Coro unit :=
  update (set_author (Some ctx_author)) ;;;
  r <- try_except
         (try_except
            (page <- on_source (Schedule.get_page 0 false false None) ;;
             ret (Some page))
            IndexError (ret None))
         NoSchedule (ret None) ;;
  match r with
  | None =>
      m <- gets (@menu _) ;;
      emit (ChannelSend {| content := Val (format_error m); embed := Absent |}
                        (view_of m))
  | Some page =>
      kwargs <- _get_kwargs_from_page page ;;
      match kwargs with
      | None => raise TypeError
      | Some k =>
          m <- gets (@menu _) ;;
          if is_slash then emit (FollowupSend k (view_of m))
          else emit (ChannelSend k (view_of m))
      end
  end.

(** [start]: [sent] is the message the sink hands back. *)
Definition start (ctx_author : User) (is_slash : bool) (sent : Z)
  : Coro unit :=
  on_source Schedule._prepare_once ;;;
  m <- gets (@menu _) ;;
  (match several_options m with
   | Some opts =>
       on_controls (set_select_view
                      (Some (new_select (slice opts None (Some 25))))) ;;;
       on_controls (add_item Ref_select_view)
   | None => ret tt
   end) ;;;
  update (set_author (Some ctx_author)) ;;;
  send_initial_message ctx_author is_slash ;;;
  update (set_message (Some sent)).

End GamesMenu.
Arguments GamesMenu S : clear implicits.
End Games.

End Hockey.

(* ===================================================================== *)
(** * The design, and the steps of a transition *)
(* ===================================================================== *)

(** The window as the design describes it: all options up to 25, the 12
    before and the 13 from the current page on when the page is past 12
    and before the last 25, the last 25 near the end, the first 25
    otherwise. *)
Definition spec_select_window {A} (opts : list A) (c : Z) : list A :=
  if len opts <=? 25 then opts
  else if (12 <? c) && (c <? len opts - 25)
       then firstn 25 (skipn (Z.to_nat (c - 12)) opts)
       else if len opts - 25 <=? c
            then skipn (Z.to_nat (len opts - 25)) opts
            else firstn 25 opts.

(** The window of the hockey menus: the first 25 before page 12, then
    the options from 12 before the page to 13 after it, as far as there
    are options. *)
Definition clipped_select_window {A} (opts : list A) (p : Z) : list A :=
  if p <? 12 then firstn 25 opts
  else firstn 25 (skipn (Z.to_nat (p - 12)) opts).

(** The page a checked transition asks the source for, as the design
    words it: the requested page when the length is unknown or the page
    is in range, the first page past the end, the last page before the
    start. *)
Definition spec_goto_target (max_pages : option Z) (n : Z) : Z :=
  match max_pages with
  | None => n
  | Some M => if M <=? n then 0 else if n <? 0 then M - 1 else n
  end.

Section DestinySteps.
Context {S Page : Type} {Src : PageSource S Page}.
Implicit Types (m : Destiny.BaseMenu S).

(** The controls with the four navigation buttons set to [b]. *)
Definition nav_disabled (b : bool) (c : Controls) : Controls :=
  {| first_item := {| disabled := b |};
     last_item := {| disabled := b |};
     back_button := {| disabled := b |};
     forward_button := {| disabled := b |};
     stop_button := stop_button c;
     select_view := select_view c;
     children := children c |}.

(** The controls [check_disabled_buttons] leaves, for a source with or
    without options. *)
Definition checked_controls (b : bool) (has_options : bool) (c : Controls)
  : Controls :=
  match has_options, select_view c with
  | true, Some s =>
      set_select_view (Some (set_select_disabled b s)) (nav_disabled b c)
  | _, _ => nav_disabled b c
  end.

(** The controls after the select was looked at in [show_page]: rebuilt
    from the page the menu is still on when the requested page is 12 or
    more, left alone otherwise. *)
Definition destiny_select_step m (p : Z) : Controls :=
  if Destiny.has_select_options m && (12 <=? p)
  then add_item Ref_select_view
         (set_select_view (Destiny._get_select_menu m)
            (remove_item Ref_select_view (Destiny.controls m)))
  else Destiny.controls m.

End DestinySteps.

Section HockeySteps.
Context {S Page : Type} {Src : PageSource S Page}.
Implicit Types (m : Hockey.BaseMenu S).

(** The controls after a page transition of the hockey [BaseMenu] to
    [p], from the controls [c0] before it: the buttons are the same
    objects in the same state, and the select is a fresh one over the
    clipped window when the source has options. *)
Definition hockey_controls_after (c0 c : Controls)
           (opts : option (list SelectOption)) (p : Z) : Prop :=
  first_item c = first_item c0
  /\ last_item c = last_item c0
  /\ back_button c = back_button c0
  /\ forward_button c = forward_button c0
  /\ stop_button c = stop_button c0
  /\ select_view c
     = match opts with
       | Some opts => Some (new_select (clipped_select_window opts p))
       | None => select_view c0
       end.

(** The controls [update_select_view] leaves: an attached select is
    detached, and when the source has options a fresh select over the
    clipped window is stored and attached after the other items. *)
Definition hockey_select_step m (p : Z) : Controls :=
  let c := match select_view (Hockey.controls m) with
           | Some _ => remove_item Ref_select_view (Hockey.controls m)
           | None => Hockey.controls m
           end in
  match select_options (Hockey._source m) with
  | Some opts =>
      add_item Ref_select_view
        (set_select_view (Some (new_select (clipped_select_window opts p))) c)
  | None => c
  end.

(** The request [show_page] ends with. *)
Definition hockey_edit_event (i : Interaction) (k : Kwargs) m : Event :=
  if response_is_done i
  then FollowupEdit k (Val (Hockey.view_of m))
  else ResponseEditMessage k (Val (Hockey.view_of m)).

End HockeySteps.

Section GamesSteps.
Context {S Page : Type} {Sch : Hockey.Schedule.Source S Page}.
Implicit Types (m : Hockey.Games.GamesMenu S).

(** The controls after the select was looked at in [show_page]: a fresh
    select over the clipped window when the source has several
    options. *)
Definition games_select_step m (p : Z) : Controls :=
  match Hockey.Games.several_options m with
  | Some opts =>
      add_item Ref_select_view
        (set_select_view (Some (new_select (clipped_select_window opts p)))
           (match select_view (Hockey.Games.controls m) with
            | Some _ => remove_item Ref_select_view (Hockey.Games.controls m)
            | None => Hockey.Games.controls m
            end))
  | None => Hockey.Games.controls m
  end.

(** The request a transition ends with. *)
Definition games_edit_event (i : Interaction) (k : Kwargs) m : Event :=
  if response_is_done i
  then FollowupEdit k (Val (Hockey.Games.view_of m))
  else ResponseEditMessage k (Val (Hockey.Games.view_of m)).

End GamesSteps.

(* ===================================================================== *)
(** * Sessions to run the menus on *)
(* ===================================================================== *)

Module Sessions.

Definition embed_titled (t : string) : Embed :=
  {| title := t; description := None; footer := None |}.

Definition alice : User := {| id := 1001 |}.
Definition bob : User := {| id := 2002 |}.

(** A press by [u] on an item of the menu message [7]. *)
Definition press (u : User) (ephemeral : bool) : Interaction :=
  {| user := u; message_id := 7; message_flags_ephemeral := ephemeral;
     response_is_done := false |}.

(** *** destiny *)

#[local] Existing Instance Destiny.BasePages.source.

(** [n] embeds with the titles [Item 0], [Item 1], ... *)
Definition numbered_embeds (n : nat) : list Embed :=
  map (fun k => embed_titled ("Item " ++ str (Z.of_nat k))%string) (seq 0 n).

Definition numbered_pages (n : nat) : Destiny.BasePages.BasePages :=
  Destiny.BasePages.__init__ (numbered_embeds n) (seq 0 n).

(** Three embeds of which the last two are equal. *)
Definition pages_with_duplicate : Destiny.BasePages.BasePages :=
  Destiny.BasePages.__init__
    [embed_titled "Vault"; embed_titled "Weapon"; embed_titled "Weapon"]
    [0; 1; 2]%nat.

(** Two embeds of which the second is listed twice. *)
Definition pages_with_repeat : Destiny.BasePages.BasePages :=
  Destiny.BasePages.__init__
    [embed_titled "Vault"; embed_titled "Weapon"] [0; 1; 1]%nat.

(** A destiny menu over [source], started by alice. *)
Definition destiny_session (source : Destiny.BasePages.BasePages)
  : World (Destiny.BaseMenu Destiny.BasePages.BasePages) :=
  snd (Destiny.send_initial_message alice
         {| menu := Destiny.BaseMenu__init__ source 0; sink := [] |}).

(** *** hockey *)

Definition player_embed (player_id : Z) (season : string) : result Embed :=
  Ok {| title := ("Player " ++ str player_id)%string;
        description := Some season;
        footer := None |}.

Definition player_ids (n : nat) : list Z :=
  map (fun k => 8470000 + Z.of_nat k) (seq 0 n).

(** The pages of [n] players, all of them known. *)
Definition roster (n : nat) : Hockey.PlayerPages.PlayerPages :=
  match Hockey.PlayerPages.__init__ (player_ids n) "20222023"
          (map (fun player_id =>
                  (player_id, ("Skater " ++ str player_id)%string))
               (player_ids n)) with
  | Ok source => source
  | Raise _ =>
      {| Hockey.PlayerPages.pages := []; Hockey.PlayerPages.players := [];
         Hockey.PlayerPages.season := "";
         Hockey.PlayerPages.select_options := [] |}
  end.

#[local] Instance players : PageSource Hockey.PlayerPages.PlayerPages Z :=
  Hockey.PlayerPages.source player_embed.

(** A hockey menu over the roster of [n] players, not started yet. *)
Definition hockey_menu (n : nat)
  : World (Hockey.BaseMenu Hockey.PlayerPages.PlayerPages) :=
  {| menu := Hockey.BaseMenu__init__ (roster n) 0; sink := [] |}.

(** The same menu started by alice from a text command; the menu
    message is [7]. *)
Definition hockey_session (n : nat)
  : World (Hockey.BaseMenu Hockey.PlayerPages.PlayerPages) :=
  snd (Hockey.start alice false 7 (hockey_menu n)).

(** *** A source of unknown length *)

(** A page source that keeps the [get_max_pages] of the base class,
    which returns [None]: the pages are lines of text fetched by
    position. *)
Record Feed : Type := { lines : list string }.

#[local] Instance feed : PageSource Feed string :=
  {| get_max_pages := fun _ => None;
     get_page := fun n self => (getitem (lines self) n, self);
     format_page := fun _ page self => (Ok (FStr page), self);
     Menus._prepare_once := fun self => (Ok tt, self);
     Menus.select_options := fun _ => None;
     entries := lines;
     pages := lines;
     page_eqb := fun _ => String.eqb |}.

Definition news : Feed := {| lines := ["Opening night"; "Trade deadline"] |}.

Definition destiny_feed_session : World (Destiny.BaseMenu Feed) :=
  snd (Destiny.send_initial_message alice
         {| menu := Destiny.BaseMenu__init__ news 0; sink := [] |}).

Definition hockey_feed_session : World (Hockey.BaseMenu Feed) :=
  snd (Hockey.start alice false 7
         {| menu := Hockey.BaseMenu__init__ news 0; sink := [] |}).

(** *** games *)

(** Modelled from the spec: the filtered source of the games menu
    ([hockey/schedule.py] is not among the sources).  Its pages depend
    on a team filter; [get_page] fails with the no-content condition
    when the filter leaves no game and with IndexError outside the games
    it leaves; there is one select option per game. *)
Record Fixtures : Type :=
  { games : list (string * string);
    team_filter : list string;
    searched : string }.

Definition plays (teams : list string) (game : string * string) : bool :=
  match teams with
  | [] => true
  | _ => existsb (String.eqb (fst game)) teams
  end.

Definition matching (self : Fixtures) : list (string * string) :=
  filter (plays (team_filter self)) (games self).

Definition game_options (self : Fixtures) : list SelectOption :=
  map (fun cg : Z * (string * string) =>
         {| label := snd (snd cg); value := fst cg;
            opt_description := fst (snd cg) |})
      (enumerate_from 0 (matching self)).

#[local] Instance fixtures : Hockey.Schedule.Source Fixtures (string * string) :=
  {| Hockey.Schedule.get_page := fun n _ _ _ self =>
       match matching self with
       | [] => (Raise NoSchedule, self)
       | _ =>
           (if (0 <=? n) && (n <? len (matching self))
            then getitem (matching self) n
            else Raise IndexError, self)
       end;
     Hockey.Schedule.format_page := fun _ page self =>
       (Ok (FStr (snd page)), self);
     Hockey.Schedule._prepare_once := fun self => (Ok tt, self);
     Hockey.Schedule.select_options := fun self => Some (game_options self);
     Hockey.Schedule.team := team_filter;
     Hockey.Schedule._last_searched := searched;
     Hockey.Schedule.is_Schedule := fun _ => true |}.

Definition week (teams : list string) : Fixtures :=
  {| games := [("Bruins", "Bruins at Leafs");
               ("Oilers", "Oilers at Flames");
               ("Bruins", "Habs at Bruins")];
     team_filter := teams;
     searched := "2022-10-07 to 2022-10-14" |}.

(** A stand-in for [humanize_list] of the bot framework, which the menu
    only passes the team filter to: it agrees with it on the one-team
    filters used below. *)
Definition humanize_list : list string -> string := String.concat ", ".

(** A games menu over the week filtered by [teams], not started yet. *)
Definition games_menu (teams : list string)
  : World (Hockey.Games.GamesMenu Fixtures) :=
  {| menu := Hockey.Games.GamesMenu__init__ (week teams); sink := [] |}.

(** The same menu started by alice from a text command. *)
Definition games_session (teams : list string)
  : World (Hockey.Games.GamesMenu Fixtures) :=
  snd (Hockey.Games.start humanize_list alice false 7 (games_menu teams)).

(** The games menu over the whole week, moved on to its page 1. *)
Definition games_session_on_page_1
  : World (Hockey.Games.GamesMenu Fixtures) :=
  snd (Hockey.Games.show_checked_page humanize_list 1 (press alice false)
         (games_session [])).

End Sessions.

(* ===================================================================== *)
(** * Slices and list positions *)
(* ===================================================================== *)

Section SliceFacts.
Context {A : Type}.
Implicit Types (l : list A) (a b : Z).

Lemma len_nonneg l : 0 <= len l.
Proof. unfold len; lia. Qed.

Lemma firstn_min l (n k : nat) :
  (List.length l <= k)%nat -> firstn (Nat.min n k) l = firstn n l.
Proof.
  intros Hk. destruct (Nat.le_ge_cases n k) as [H | H].
  - now rewrite Nat.min_l.
  - rewrite Nat.min_r by assumption.
    rewrite !firstn_all2; [reflexivity | lia | lia].
Qed.

(** [l[:b]] is the first [b] elements. *)
Lemma slice_prefix l b : 0 <= b -> slice l None (Some b) = firstn (Z.to_nat b) l.
Proof.
  intros Hb. unfold slice, adjust.
  destruct (Z.ltb_spec b 0); [lia |].
  rewrite Z.sub_0_r. simpl skipn.
  replace (Z.to_nat (Z.min b (len l)))
    with (Nat.min (Z.to_nat b) (List.length l)) by (unfold len; lia).
  apply firstn_min. lia.
Qed.

(** [l[a:b]] for bounds that are not negative. *)
Lemma slice_between l a b :
  0 <= a -> a <= b ->
  slice l (Some a) (Some b) = firstn (Z.to_nat (b - a)) (skipn (Z.to_nat a) l).
Proof.
  intros Ha Hab. unfold slice, adjust.
  destruct (Z.ltb_spec a 0); [lia |].
  destruct (Z.ltb_spec b 0); [lia |].
  destruct (Z.le_gt_cases (len l) a) as [Hlen | Hlen].
  - rewrite (Z.min_r a) by lia.
    rewrite !(skipn_all2 l) by (unfold len in *; lia).
    now rewrite !firstn_nil.
  - rewrite (Z.min_l a) by lia.
    replace (Z.to_nat (Z.min b (len l) - a))
      with (Nat.min (Z.to_nat (b - a)) (List.length l - Z.to_nat a))
      by (unfold len in *; lia).
    apply firstn_min. rewrite length_skipn. lia.
Qed.

(** [l[a:]] for a bound within the list. *)
Lemma slice_suffix l a :
  0 <= a <= len l -> slice l (Some a) None = skipn (Z.to_nat a) l.
Proof.
  intros Ha. unfold slice, adjust.
  destruct (Z.ltb_spec a 0); [lia |].
  rewrite Z.min_l by lia.
  apply firstn_all2. rewrite length_skipn. unfold len in *. lia.
Qed.

Lemma len_firstn_skipn l (n k : nat) :
  (k + n <= List.length l)%nat -> List.length (firstn n (skipn k l)) = n.
Proof. intros H. rewrite length_firstn, length_skipn. lia. Qed.

End SliceFacts.

(* ===================================================================== *)
(** * The select window *)
(* ===================================================================== *)

Lemma spec_select_window_length {A} (opts : list A) (c : Z) :
  25 < len opts -> List.length (spec_select_window opts c) = 25%nat.
Proof.
  intros HL. unfold spec_select_window.
  destruct (Z.leb_spec (len opts) 25); [lia |].
  destruct (Z.ltb_spec 12 c); cbn [andb].
  - destruct (Z.ltb_spec c (len opts - 25)); cbn [andb].
    + apply len_firstn_skipn. unfold len in *. lia.
    + destruct (Z.leb_spec (len opts - 25) c); [| lia].
      rewrite length_skipn. unfold len in *. lia.
  - destruct (Z.leb_spec (len opts - 25) c).
    + rewrite length_skipn. unfold len in *. lia.
    + rewrite length_firstn. unfold len in *. lia.
Qed.

Lemma clipped_select_window_length {A} (opts : list A) (p : Z) :
  12 <= p <= len opts + 12 ->
  Z.of_nat (List.length (clipped_select_window opts p))
  = Z.min 25 (len opts - (p - 12)).
Proof.
  intros Hp. unfold clipped_select_window.
  destruct (Z.ltb_spec p 12); [lia |].
  rewrite length_firstn, length_skipn. unfold len in *. lia.
Qed.

(** The size of the clipped window at any page number. *)
Lemma clipped_select_window_size {A} (opts : list A) (p : Z) :
  Z.of_nat (List.length (clipped_select_window opts p))
  = if p <? 12 then Z.min 25 (len opts)
    else Z.max 0 (Z.min 25 (len opts - (p - 12))).
Proof.
  unfold clipped_select_window.
  destruct (Z.ltb_spec p 12).
  - rewrite length_firstn. unfold len. lia.
  - rewrite length_firstn, length_skipn. unfold len. lia.
Qed.

Section DestinyWindow.
Context {S Page : Type} {Src : PageSource S Page}.

(** [_get_select_menu] builds the select over the window of the design,
    taken at [self.current_page]. *)
Lemma get_select_menu_window (m : Destiny.BaseMenu S) opts :
  select_options (Destiny._source m) = Some opts ->
  Destiny._get_select_menu m
  = Some (new_select (spec_select_window opts (Destiny.current_page m))).
Proof.
  intros Hopts. unfold Destiny._get_select_menu, spec_select_window.
  rewrite Hopts. f_equal. f_equal.
  pose proof (len_nonneg opts) as Hlen.
  destruct (Z.ltb_spec 25 (len opts)); destruct (Z.leb_spec (len opts) 25);
    try lia.
  - destruct (Z.ltb_spec 12 (Destiny.current_page m)); cbn [andb].
    + destruct (Z.ltb_spec (Destiny.current_page m) (len opts - 25)); cbn [andb].
      * rewrite slice_between by lia. f_equal. lia.
      * destruct (Z.leb_spec (len opts - 25) (Destiny.current_page m));
          [| lia].
        apply slice_suffix. lia.
    + destruct (Z.leb_spec (len opts - 25) (Destiny.current_page m)).
      * apply slice_suffix. lia.
      * now rewrite slice_prefix by lia.
  - rewrite slice_prefix by lia. apply firstn_all2. unfold len in *. lia.
Qed.

End DestinyWindow.

(* ===================================================================== *)
(** * Running the coroutines *)
(* ===================================================================== *)

Ltac coro :=
  unfold update, emit in *;
  unfold bind, ret, raise, gets, modify, try_except in *;
  cbn [fst snd menu sink exn_eqb] in *.

Section HockeyBaseMenuFacts.
Context {S Page : Type} {Src : PageSource S Page}.
Implicit Types (w : World (Hockey.BaseMenu S)) (m : Hockey.BaseMenu S).

Lemma hockey_window_slice (opts : list SelectOption) p :
  (if 12 <=? p
   then slice opts (Some (p - 12)) (Some (p + 13))
   else slice opts None (Some 25))
  = clipped_select_window opts p.
Proof.
  unfold clipped_select_window.
  destruct (Z.leb_spec 12 p); destruct (Z.ltb_spec p 12); try lia.
  - rewrite slice_between by lia. f_equal. lia.
  - now rewrite slice_prefix by lia.
Qed.

(** [update_select_view] raises nothing and touches neither the source,
    the page nor the sink. *)
Lemma hockey_update_select_view w p :
  exists c,
    Hockey.update_select_view p w
    = (Ok tt, {| menu := Hockey.set_controls c (menu w); sink := sink w |})
    /\ hockey_controls_after (Hockey.controls (menu w)) c
         (select_options (Hockey._source (menu w))) p.
Proof.
  destruct w as [[src ps cp au msg st c] tr].
  unfold Hockey.update_select_view, Hockey.on_controls, hockey_controls_after.
  coro. cbn.
  destruct (select_view c) eqn:Hsel; destruct (select_options src) eqn:Hopts;
    cbn; rewrite ?Hopts; eexists; (split; [reflexivity |]); cbn;
    rewrite ?hockey_window_slice; repeat split; auto.
Qed.

(** [update_select_view] in one step. *)
Lemma hockey_update_select_view_step w p :
  Hockey.update_select_view p w
  = (Ok tt, {| menu := Hockey.set_controls (hockey_select_step (menu w) p)
                         (menu w);
               sink := sink w |}).
Proof.
  destruct w as [[src ps cp au msg st c] tr].
  unfold Hockey.update_select_view, Hockey.on_controls, hockey_select_step.
  coro. cbn.
  destruct (select_view c) eqn:Hsel; destruct (select_options src) eqn:Hopts;
    cbn; rewrite ?Hopts, ?hockey_window_slice; reflexivity.
Qed.

(** [show_page], step by step. *)
Lemma hockey_show_page_run w p i :
  let m := menu w in
  match get_page p (Hockey._source m) with
  | (Raise e, s1) =>
      Hockey.show_page p i w
      = (Raise e, {| menu := Hockey.set_source s1 m; sink := sink w |})
  | (Ok page, s1) =>
      match format_page {| ctx_current_page := p;
                           ctx_author := Hockey.author m |} page s1 with
      | (Raise e, s2) =>
          Hockey.show_page p i w
          = (Raise e,
             {| menu := Hockey.set_source s2 (Hockey.set_current_page p m);
                sink := sink w |})
      | (Ok v, s2) =>
          exists c,
            hockey_controls_after (Hockey.controls m) c (select_options s2) p
            /\ let m2 := Hockey.set_controls c
                           (Hockey.set_source s2
                              (Hockey.set_current_page p m)) in
               Hockey.show_page p i w
               = match kwargs_of v with
                 | None => (Raise TypeError, {| menu := m2; sink := sink w |})
                 | Some k =>
                     (Ok tt, {| menu := m2;
                                sink := sink w ++ [hockey_edit_event i k m2] |})
                 end
      end
  end.
Proof.
  destruct w as [[src ps cp au msg st c] tr]. cbn.
  unfold Hockey.show_page, Hockey._get_kwargs_from_page, Hockey.on_source.
  coro. cbn -[Hockey.update_select_view Hockey.edit].
  destruct (get_page p src) as [[page | e] s1]; [| reflexivity].
  cbn -[Hockey.update_select_view Hockey.edit].
  destruct (format_page _ page s1) as [[v | e] s2]; [| reflexivity].
  cbn -[Hockey.update_select_view Hockey.edit].
  match goal with
  | |- context [Hockey.update_select_view p ?w0] =>
      destruct (hockey_update_select_view w0 p) as (c' & Hrun & Hc);
      rewrite Hrun
  end.
  cbn in *. exists c'. split; [exact Hc |].
  unfold Hockey.edit, hockey_edit_event. coro.
  destruct (kwargs_of v); [| reflexivity].
  cbn. destruct (response_is_done i); reflexivity.
Qed.

(** How a completed transition of the hockey menu ends. *)
Lemma hockey_show_page_done w w' p i :
  Hockey.show_page p i w = (Ok tt, w') ->
  exists page s1 v s2 k,
    get_page p (Hockey._source (menu w)) = (Ok page, s1)
    /\ format_page {| ctx_current_page := p;
                      ctx_author := Hockey.author (menu w) |} page s1
       = (Ok v, s2)
    /\ kwargs_of v = Some k
    /\ let m2 := Hockey.set_source s2 (Hockey.set_current_page p (menu w)) in
       let m3 := Hockey.set_controls (hockey_select_step m2 p) m2 in
       w' = {| menu := m3; sink := sink w ++ [hockey_edit_event i k m3] |}.
Proof.
  destruct w as [[src ps cp au msg st c] tr]. cbn.
  unfold Hockey.show_page, Hockey._get_kwargs_from_page, Hockey.on_source.
  coro. cbn -[Hockey.update_select_view Hockey.edit].
  destruct (get_page p src) as [[page | e] s1] eqn:Hget; [| discriminate].
  cbn -[Hockey.update_select_view Hockey.edit].
  destruct (format_page _ page s1) as [[v | e] s2] eqn:Hfmt; [| discriminate].
  cbn -[Hockey.update_select_view Hockey.edit].
  rewrite hockey_update_select_view_step.
  cbn -[hockey_select_step].
  unfold Hockey.edit, hockey_edit_event. coro.
  destruct (kwargs_of v) as [k |] eqn:Hk; [| discriminate].
  intros Hdone. exists page, s1, v, s2, k.
  split; [reflexivity |]. split; [exact Hfmt |]. split; [exact Hk |].
  cbv zeta. cbn -[hockey_select_step] in Hdone.
  destruct (response_is_done i); cbn -[hockey_select_step] in Hdone;
    injection Hdone as <-; reflexivity.
Qed.

End HockeyBaseMenuFacts.

Section DestinyBaseMenuFacts.
Context {S Page : Type} {Src : PageSource S Page}.
Implicit Types (w : World (Destiny.BaseMenu S)) (m : Destiny.BaseMenu S).

Lemma destiny_check_disabled_buttons w :
  let m := menu w in
  let b := len (entries (Destiny._source m)) =? 1 in
  let c := checked_controls b (Destiny.has_select_options m)
                            (Destiny.controls m) in
  Destiny.check_disabled_buttons w
  = (match Destiny.has_select_options m, select_view (Destiny.controls m) with
     | true, None => Raise AttributeError
     | _, _ => Ok tt
     end,
     {| menu := Destiny.set_controls c m; sink := sink w |}).
Proof.
  destruct w as [[src cp au st c] tr]. cbn.
  unfold Destiny.check_disabled_buttons, Destiny.on_controls,
    Destiny.disable_select, checked_controls, Destiny.has_select_options.
  coro. cbn.
  destruct (len (entries src) =? 1); cbn;
    destruct (select_options src); cbn;
    destruct (select_view c); reflexivity.
Qed.

(** [show_page], step by step. *)
Lemma destiny_show_page_run w p i :
  let m := menu w in
  match get_page p (Destiny._source m) with
  | (Raise e, s1) =>
      Destiny.show_page p i w
      = (Raise e, {| menu := Destiny.set_source s1 m; sink := sink w |})
  | (Ok page, s1) =>
      let m1 := Destiny.set_source s1 m in
      let m2 := Destiny.set_controls (destiny_select_step m1 p) m1 in
      match index (page_eqb s1) (pages s1) page with
      | Raise e =>
          Destiny.show_page p i w = (Raise e, {| menu := m2; sink := sink w |})
      | Ok idx =>
          let m3 := Destiny.set_current_page idx m2 in
          match format_page {| ctx_current_page := idx;
                               ctx_author := Destiny.author m |} page s1 with
          | (Raise e, s2) =>
              Destiny.show_page p i w
              = (Raise e,
                 {| menu := Destiny.set_source s2 m3; sink := sink w |})
          | (Ok v, s2) =>
              let m4 := Destiny.set_source s2 m3 in
              let m5 :=
                Destiny.set_controls
                  (checked_controls (len (entries s2) =? 1)
                     (Destiny.has_select_options m4) (Destiny.controls m4))
                  m4 in
              Destiny.show_page p i w
              = match Destiny.has_select_options m4,
                      select_view (Destiny.controls m4) with
                | true, None =>
                    (Raise AttributeError, {| menu := m5; sink := sink w |})
                | _, _ =>
                    match kwargs_of v with
                    | None =>
                        (Raise TypeError, {| menu := m5; sink := sink w |})
                    | Some k =>
                        (Ok tt,
                         {| menu := m5;
                            sink := sink w
                                    ++ [ResponseEditMessage k
                                          (Val (Destiny.view_of m5))] |})
                    end
                end
          end
      end
  end.
Proof.
  destruct w as [[src cp au st c] tr]. cbn.
  unfold Destiny.show_page, Destiny._get_kwargs_from_page, Destiny.on_source,
    Destiny.on_controls, destiny_select_step.
  coro. cbn -[Destiny.check_disabled_buttons Destiny._get_select_menu].
  destruct (get_page p src) as [[page | e] s1]; [| reflexivity].
  unfold Destiny.set_source.
  cbn -[Destiny.check_disabled_buttons Destiny._get_select_menu].
  set (m1 := {| Destiny._source := s1; Destiny.current_page := cp;
                Destiny.author := au; Destiny.stopped := st;
                Destiny.controls := c |}).
  assert (Hsel : Destiny.has_select_options m1 = true ->
                 exists s, Destiny._get_select_menu m1 = Some s).
  { unfold Destiny.has_select_options. cbn.
    destruct (select_options s1) as [opts |] eqn:Hopts; [| discriminate].
    intros _. eexists. eapply get_select_menu_window. exact Hopts. }
  unfold Destiny.has_select_options in *.
  cbn -[Destiny.check_disabled_buttons Destiny._get_select_menu] in Hsel |- *.
  destruct (select_options s1) as [opts |] eqn:Hopts;
    cbn -[Destiny.check_disabled_buttons Destiny._get_select_menu].
  - destruct (Hsel eq_refl) as [sel Hs].
    destruct (12 <=? p);
      cbn -[Destiny.check_disabled_buttons Destiny._get_select_menu];
      rewrite ?Hs;
      cbn -[Destiny.check_disabled_buttons Destiny._get_select_menu];
      (destruct (index (page_eqb s1) (pages s1) page) as [idx | e];
       [| reflexivity]);
      cbn -[Destiny.check_disabled_buttons Destiny._get_select_menu];
      (destruct (format_page _ page s1) as [[v | e] s2]; [| reflexivity]);
      cbn -[Destiny.check_disabled_buttons Destiny._get_select_menu];
      rewrite destiny_check_disabled_buttons;
      unfold Destiny.has_select_options, Destiny.edit_message; cbn;
      (destruct (select_options s2); cbn;
       [destruct (select_view c) |]; cbn;
       destruct (kwargs_of v); reflexivity).
  - destruct (index (page_eqb s1) (pages s1) page) as [idx | e];
      [| reflexivity].
    cbn -[Destiny.check_disabled_buttons Destiny._get_select_menu].
    destruct (format_page _ page s1) as [[v | e] s2]; [| reflexivity].
    cbn -[Destiny.check_disabled_buttons Destiny._get_select_menu].
    rewrite destiny_check_disabled_buttons.
    unfold Destiny.has_select_options, Destiny.edit_message. cbn.
    destruct (select_options s2); cbn;
      [destruct (select_view c) |]; cbn;
      destruct (kwargs_of v); reflexivity.
Qed.

End DestinyBaseMenuFacts.

(* ===================================================================== *)
(** * Checked navigation *)
(* ===================================================================== *)

Lemma try_except_IndexError {W} (c : M W unit) (w : W) :
  try_except c IndexError (ret tt) w
  = match c w with
    | (Raise IndexError, w') => (Ok tt, w')
    | r => r
    end.
Proof.
  unfold try_except, ret. destruct (c w) as [[[] | []] w']; reflexivity.
Qed.

Section CheckedNavigation.
Context {S Page : Type} {Src : PageSource S Page}.

Lemma destiny_show_checked_page_target (w : World (Destiny.BaseMenu S)) n i :
  Destiny.show_checked_page n i w
  = try_except
      (Destiny.show_page
         (spec_goto_target (get_max_pages (Destiny._source (menu w))) n) i)
      IndexError (ret tt) w.
Proof.
  unfold Destiny.show_checked_page, spec_goto_target, bind, gets. cbn.
  destruct (get_max_pages (Destiny._source (menu w))) as [M |];
    [| reflexivity].
  destruct (Z.leb_spec M n); [reflexivity |].
  destruct (Z.ltb_spec n 0); [reflexivity |].
  destruct (Z.ltb_spec n M); [| lia].
  destruct (Z.leb_spec 0 n); [reflexivity | lia].
Qed.

Lemma hockey_show_checked_page_target (w : World (Hockey.BaseMenu S)) n i :
  Hockey.show_checked_page n i w
  = try_except
      (Hockey.show_page
         (spec_goto_target (get_max_pages (Hockey._source (menu w))) n) i)
      IndexError (ret tt) w.
Proof.
  unfold Hockey.show_checked_page, spec_goto_target, bind, gets. cbn.
  destruct (get_max_pages (Hockey._source (menu w))) as [M |];
    [| reflexivity].
  destruct (Z.leb_spec M n); [reflexivity |].
  destruct (Z.ltb_spec n 0); [reflexivity |].
  destruct (Z.ltb_spec n M); [| lia].
  destruct (Z.leb_spec 0 n); [reflexivity | lia].
Qed.

(** A transition whose [get_page] raises ends there: only the source
    may have changed. *)
Lemma destiny_show_page_get_raises (w : World (Destiny.BaseMenu S)) k i e s' :
  get_page k (Destiny._source (menu w)) = (Raise e, s') ->
  Destiny.show_page k i w
  = (Raise e, {| menu := Destiny.set_source s' (menu w); sink := sink w |}).
Proof.
  intros H. pose proof (destiny_show_page_run w k i) as Hrun.
  cbv zeta in Hrun. now rewrite H in Hrun.
Qed.

Lemma hockey_show_page_get_raises (w : World (Hockey.BaseMenu S)) k i e s' :
  get_page k (Hockey._source (menu w)) = (Raise e, s') ->
  Hockey.show_page k i w
  = (Raise e, {| menu := Hockey.set_source s' (menu w); sink := sink w |}).
Proof.
  intros H. pose proof (hockey_show_page_run w k i) as Hrun.
  cbv zeta in Hrun. now rewrite H in Hrun.
Qed.

End CheckedNavigation.

Section CheckedNavigationOfBoth.
Context {S Page : Type} {Src : PageSource S Page}.
Context {T PageT : Type} {SrcT : PageSource T PageT}.

(** C6. In both [BaseMenu]s, when [get_max_pages()] is [None] the
    checked transition is the unchecked one to the requested page itself
    under the [except IndexError]; and whatever the length, when
    [get_page] raises IndexError for the page the transition asks for,
    the transition returns normally and the session is as before: the
    page, the author, the controls and the requests sent so far are
    untouched, only the source is in the state [get_page] left it. *)
Theorem checked_page_unknown_length_and_index_error
        (wd : World (Destiny.BaseMenu S)) (wh : World (Hockey.BaseMenu T))
        (n : Z) (i : Interaction) :
  (get_max_pages (Destiny._source (menu wd)) = None ->
   Destiny.show_checked_page n i wd
   = try_except (Destiny.show_page n i) IndexError (ret tt) wd)
  /\ (get_max_pages (Hockey._source (menu wh)) = None ->
      Hockey.show_checked_page n i wh
      = try_except (Hockey.show_page n i) IndexError (ret tt) wh)
  /\ (forall s',
         get_page (spec_goto_target (get_max_pages (Destiny._source (menu wd))) n)
                  (Destiny._source (menu wd)) = (Raise IndexError, s') ->
         Destiny.show_checked_page n i wd
         = (Ok tt, {| menu := Destiny.set_source s' (menu wd);
                      sink := sink wd |}))
  /\ (forall s',
         get_page (spec_goto_target (get_max_pages (Hockey._source (menu wh))) n)
                  (Hockey._source (menu wh)) = (Raise IndexError, s') ->
         Hockey.show_checked_page n i wh
         = (Ok tt, {| menu := Hockey.set_source s' (menu wh);
                      sink := sink wh |})).
Proof.
  repeat split.
  - intros Hnone. rewrite destiny_show_checked_page_target, Hnone.
    reflexivity.
  - intros Hnone. rewrite hockey_show_checked_page_target, Hnone.
    reflexivity.
  - intros s' Hraise.
    rewrite destiny_show_checked_page_target, try_except_IndexError.
    now erewrite destiny_show_page_get_raises by exact Hraise.
  - intros s' Hraise.
    rewrite hockey_show_checked_page_target, try_except_IndexError.
    now erewrite hockey_show_page_get_raises by exact Hraise.
Qed.

End CheckedNavigationOfBoth.

(* ===================================================================== *)
(** * The position of the fetched page *)
(* ===================================================================== *)

Section IndexFacts.
Context {A : Type}.
Variable eqb : A -> A -> bool.

Lemma getitem_in_range (l : list A) (n : Z) :
  0 <= n < len l ->
  exists y, getitem l n = Ok y /\ nth_error l (Z.to_nat n) = Some y.
Proof.
  intros Hn. unfold getitem.
  destruct (Z.ltb_spec n 0); [lia |].
  destruct (Z.ltb_spec n 0); [lia |].
  destruct (Z.leb_spec (len l) n); [lia |]. cbn.
  destruct (nth_error l (Z.to_nat n)) as [y |] eqn:Hy.
  - now exists y.
  - apply nth_error_None in Hy. unfold len in *. lia.
Qed.

Lemma getitem_nth_error (l : list A) (n : Z) (y : A) :
  0 <= n -> getitem l n = Ok y -> nth_error l (Z.to_nat n) = Some y.
Proof.
  intros Hn. unfold getitem.
  destruct (Z.ltb_spec n 0); [lia |].
  destruct ((n <? 0) || (len l <=? n)); [discriminate |].
  destruct (nth_error l (Z.to_nat n)); [congruence | discriminate].
Qed.

(** [index_from] returns the first position, counted from [k0], whose
    element compares equal, and raises ValueError when there is none. *)
Lemma index_from_spec (x : A) (l : list A) (k0 : Z) :
  match index_from eqb x l k0 with
  | Ok k =>
      k0 <= k < k0 + len l
      /\ (exists y, nth_error l (Z.to_nat (k - k0)) = Some y /\ eqb y x = true)
      /\ (forall j y, k0 <= j < k ->
                      nth_error l (Z.to_nat (j - k0)) = Some y ->
                      eqb y x = false)
  | Raise e => e = ValueError /\ forall y, In y l -> eqb y x = false
  end.
Proof.
  revert k0. induction l as [| a l IH]; intros k0; cbn [index_from].
  - split; [reflexivity | intros y []].
  - destruct (eqb a x) eqn:Hax.
    + split; [unfold len; cbn [List.length]; lia |]. split.
      * exists a. rewrite Z.sub_diag. now split.
      * intros j y Hj. lia.
    + specialize (IH (k0 + 1)).
      destruct (index_from eqb x l (k0 + 1)) as [k | e].
      * destruct IH as (Hk & (y & Hy & Hyx) & Hbefore).
        split; [unfold len in *; cbn [List.length]; lia |]. split.
        -- exists y. split; [| exact Hyx].
           replace (Z.to_nat (k - k0)) with (Datatypes.S (Z.to_nat (k - (k0 + 1))))
             by lia.
           exact Hy.
        -- intros j y' Hj Hy'.
           destruct (Z.eq_dec j k0) as [-> | Hne].
           ++ rewrite Z.sub_diag in Hy'. cbn in Hy'. congruence.
           ++ apply (Hbefore j y'); [lia |].
              replace (Z.to_nat (j - k0))
                with (Datatypes.S (Z.to_nat (j - (k0 + 1)))) in Hy' by lia.
              exact Hy'.
      * destruct IH as [-> Hall]. split; [reflexivity |].
        intros y [<- | Hin]; [exact Hax | now apply Hall].
Qed.

(** [l.index(x)] for an [x] that sits at position [n]: the first
    position at or before [n] whose element compares equal. *)
Lemma index_of_listed (l : list A) (n : Z) (x : A) :
  0 <= n -> nth_error l (Z.to_nat n) = Some x -> eqb x x = true ->
  exists k,
    index eqb l x = Ok k
    /\ 0 <= k <= n
    /\ (exists y, nth_error l (Z.to_nat k) = Some y /\ eqb y x = true)
    /\ (forall j y, 0 <= j < k -> nth_error l (Z.to_nat j) = Some y ->
                    eqb y x = false).
Proof.
  intros Hn Hx Hrefl. unfold index.
  pose proof (index_from_spec x l 0) as Hspec.
  destruct (index_from eqb x l 0) as [k | e].
  - destruct Hspec as (Hk & (y & Hy & Hyx) & Hbefore).
    rewrite Z.sub_0_r in Hy.
    exists k. split; [reflexivity |]. split.
    + split; [lia |].
      destruct (Z.le_gt_cases k n) as [Hle | Hgt]; [exact Hle |].
      specialize (Hbefore n x). rewrite Z.sub_0_r in Hbefore.
      rewrite Hbefore in Hrefl; [discriminate | lia | exact Hx].
    + split; [now exists y |].
      intros j y' Hj Hy'. apply (Hbefore j y'); [lia |].
      now rewrite Z.sub_0_r.
  - destruct Hspec as [_ Hall].
    rewrite (Hall x) in Hrefl; [discriminate |].
    eapply nth_error_In. exact Hx.
Qed.

End IndexFacts.

Section DestinyCurrentPage.
Context {S Page : Type} {Src : PageSource S Page}.
Implicit Types (w : World (Destiny.BaseMenu S)).

(** Once the page is fetched and found in [pages], [current_page] is its
    position there, whatever the rest of the transition does. *)
Lemma destiny_show_page_current_page w p i page s1 k :
  get_page p (Destiny._source (menu w)) = (Ok page, s1) ->
  index (page_eqb s1) (pages s1) page = Ok k ->
  Destiny.current_page (menu (snd (Destiny.show_page p i w))) = k.
Proof.
  intros Hget Hidx. pose proof (destiny_show_page_run w p i) as Hrun.
  cbv zeta in Hrun. rewrite Hget, Hidx in Hrun.
  destruct (format_page _ page s1) as [[v | e] s2].
  - rewrite Hrun.
    destruct (Destiny.has_select_options _);
      [destruct (select_view _) |]; destruct (kwargs_of v); reflexivity.
  - now rewrite Hrun.
Qed.

Hypothesis list_source : ListPageSource Src.
Hypothesis keeps_pages : KeepsPages Src.

(** The position [show_page(n)] leaves in [current_page], for a list
    source that keeps its entries as [pages] and a page number in
    range. *)
Lemma destiny_show_page_position
        w (n : Z) (i : Interaction)
        (Hn : 0 <= n < len (entries (Destiny._source (menu w)))) :
  let s := Destiny._source (menu w) in
  exists page k,
    getitem (entries s) n = Ok page
    /\ index (page_eqb s) (pages s) page = Ok k
    /\ Destiny.current_page (menu (snd (Destiny.show_page n i w))) = k
    /\ 0 <= k <= n
    /\ (exists y, getitem (entries s) k = Ok y /\ page_eqb s y page = true)
    /\ (forall j y, 0 <= j < k -> getitem (entries s) j = Ok y ->
                    page_eqb s y page = false)
    /\ (k = n <->
        forall j y, 0 <= j < n -> getitem (entries s) j = Ok y ->
                    page_eqb s y page = false).
Proof.
  intros s. subst s. set (s := Destiny._source (menu w)) in *.
  destruct (getitem_in_range (entries s) Hn) as (page & Hget & Hnth).
  destruct (@index_of_listed _ (page_eqb s) (entries s) n page)
    as (k & Hidx & Hk & (y & Hy & Hyeq) & Hbefore);
    [lia | exact Hnth | apply (page_eqb_same keeps_pages) |].
  exists page, k. split; [exact Hget |].
  rewrite (pages_entries keeps_pages). split; [exact Hidx |]. split.
  - apply destiny_show_page_current_page with (page := page) (s1 := s).
    + fold s. now rewrite (list_get_page list_source), Hget.
    + now rewrite (pages_entries keeps_pages).
  - split; [exact Hk |]. split.
    + exists y. split; [| exact Hyeq].
      destruct (getitem_in_range (entries s) (n := k)) as (y' & Hy' & Hnth');
        [lia |]. congruence.
    + split.
      * intros j y' Hj Hy'. apply (Hbefore j y' Hj).
        apply getitem_nth_error; [lia | exact Hy'].
      * split.
        -- intros -> j y' Hj Hy'. apply (Hbefore j y' Hj).
           apply getitem_nth_error; [lia | exact Hy'].
        -- intros Hnone.
           destruct (Z.eq_dec k n) as [Heq | Hne]; [exact Heq |].
           destruct (getitem_in_range (entries s) (n := k))
             as (y' & Hy' & Hnth'); [lia |].
           assert (y' = y) as -> by congruence.
           rewrite (Hnone k y) in Hyeq; [discriminate | lia | exact Hy'].
Qed.

(** C9. In the destiny [BaseMenu] over a list source that keeps its
    entries as [pages], [show_page(n)] for a page number in range sets
    [current_page] to [pages.index(page)]: the first position [k <= n]
    whose page compares equal to the fetched one.  So [current_page] is
    [n] exactly when no earlier page equals page [n]; when an earlier one
    does, it is the position of the first such page and not [n]. *)
Theorem destiny_current_page_is_first_equal_page
        w (n : Z) (i : Interaction)
        (Hn : 0 <= n < len (entries (Destiny._source (menu w)))) :
  let s := Destiny._source (menu w) in
  exists page k,
    getitem (entries s) n = Ok page
    /\ index (page_eqb s) (pages s) page = Ok k
    /\ Destiny.current_page (menu (snd (Destiny.show_page n i w))) = k
    /\ 0 <= k <= n
    /\ (exists y, getitem (entries s) k = Ok y /\ page_eqb s y page = true)
    /\ (forall j y, 0 <= j < k -> getitem (entries s) j = Ok y ->
                    page_eqb s y page = false)
    /\ (k = n <->
        forall j y, 0 <= j < n -> getitem (entries s) j = Ok y ->
                    page_eqb s y page = false).
Proof. exact (destiny_show_page_position w i Hn). Qed.

End DestinyCurrentPage.

(* ===================================================================== *)
(** * The transitions of the games menu *)
(* ===================================================================== *)

Section GamesMenuFacts.
Context {S Page : Type} {Sch : Hockey.Schedule.Source S Page}.
Variable humanize_list : list string -> string.
Implicit Types (w : World (Hockey.Games.GamesMenu S))
         (m : Hockey.Games.GamesMenu S).

(** [show_page], step by step. *)
Lemma games_show_page_run w p i sn sp gid :
  let m := menu w in
  match Hockey.Schedule.get_page p sn sp gid (Hockey.Games.source m) with
  | (Raise e, s1) =>
      let m1 := Hockey.Games.set_source s1 m in
      Hockey.Games.show_page humanize_list p i sn sp gid w
      = if exn_eqb e NoSchedule
        then (Ok tt,
              {| menu := m1;
                 sink := sink w
                         ++ [games_edit_event i
                               {| content :=
                                    Val (Hockey.Games.format_error
                                           humanize_list m1);
                                  embed := IsNone |} m1] |})
        else (Raise e, {| menu := m1; sink := sink w |})
  | (Ok page, s1) =>
      let m1 := Hockey.Games.set_source s1 m in
      let m2 := Hockey.Games.set_current_page p
                  (Hockey.Games.set_controls (games_select_step m1 p) m1) in
      match Hockey.Schedule.format_page
              {| ctx_current_page := p;
                 ctx_author := Hockey.Games.author m |} page s1 with
      | (Raise e, s2) =>
          Hockey.Games.show_page humanize_list p i sn sp gid w
          = (Raise e,
             {| menu := Hockey.Games.set_source s2 m2; sink := sink w |})
      | (Ok v, s2) =>
          let m3 := Hockey.Games.set_source s2 m2 in
          Hockey.Games.show_page humanize_list p i sn sp gid w
          = match kwargs_of v with
            | None => (Raise TypeError, {| menu := m3; sink := sink w |})
            | Some k =>
                (Ok tt, {| menu := m3;
                           sink := sink w ++ [games_edit_event i k m3] |})
            end
      end
  end.
Proof.
  destruct w as [[src cp au msg st c b1 b2 b3 b4] tr]. cbn.
  unfold Hockey.Games.show_page, Hockey.Games._get_kwargs_from_page,
    Hockey.Games.on_source, Hockey.Games.on_controls, Hockey.Games.edit,
    games_select_step, games_edit_event, Hockey.Games.several_options.
  coro. cbn.
  unfold clipped_select_window.
  destruct (Hockey.Schedule.get_page p sn sp gid src) as [[page | e] s1];
    cbn -[firstn skipn slice].
  - destruct (Hockey.Schedule.select_options s1) as [opts |];
      cbn -[firstn skipn slice];
      [destruct (1 <? len opts); cbn -[firstn skipn slice];
       [destruct (Z.leb_spec 12 p); destruct (Z.ltb_spec p 12); try lia;
        [rewrite slice_between by lia;
         replace (p + 13 - (p - 12)) with 25 by lia
        | rewrite slice_prefix by lia];
        destruct (select_view c); cbn -[firstn skipn slice] |] |];
      (destruct (Hockey.Schedule.format_page _ page s1) as [[v | e] s2];
       try reflexivity);
      (destruct (kwargs_of v); try reflexivity);
      destruct (response_is_done i); reflexivity.
  - destruct e; cbn; try reflexivity.
    destruct (response_is_done i); reflexivity.
Qed.

(** C4. When the source raises [NoSchedule] for the page of a
    transition of the games menu, [show_page] returns normally after one
    edit of the message, sent on the channel the interaction allows: its
    content is the text of [format_error], which starts with the fixed
    words [No schedule could be found], its embed is cleared, and it
    carries the view of the menu with all its controls as they were.
    [current_page] and the controls keep their values; only the source
    is in the state [get_page] left it. *)
Theorem no_schedule_keeps_page_and_controls
        w (p : Z) (i : Interaction) (skip_next skip_prev : bool)
        (game_id : option Z) (s1 : S)
        (Hraise : Hockey.Schedule.get_page p skip_next skip_prev game_id
                    (Hockey.Games.source (menu w))
                  = (Raise NoSchedule, s1)) :
  let m1 := Hockey.Games.set_source s1 (menu w) in
  let text := Hockey.Games.format_error humanize_list m1 in
  let k := {| content := Val text; embed := IsNone |} in
  Hockey.Games.show_page humanize_list p i skip_next skip_prev game_id w
  = (Ok tt,
     {| menu := m1;
        sink := sink w
                ++ [if response_is_done i
                    then FollowupEdit k (Val (Hockey.Games.view_of m1))
                    else ResponseEditMessage k
                           (Val (Hockey.Games.view_of m1))] |})
  /\ (exists rest, text = ("No schedule could be found " ++ rest)%string)
  /\ Hockey.Games.current_page m1 = Hockey.Games.current_page (menu w)
  /\ Hockey.Games.controls m1 = Hockey.Games.controls (menu w)
  /\ Hockey.Games.view_of m1 = Hockey.Games.view_of (menu w).
Proof.
  intros m1 text k.
  pose proof (games_show_page_run w p i skip_next skip_prev game_id) as Hrun.
  cbv zeta in Hrun. rewrite Hraise in Hrun. cbn [exn_eqb] in Hrun.
  split; [exact Hrun |]. split; [| now destruct w as [[] ?]].
  subst text. unfold Hockey.Games.format_error. eexists. reflexivity.
Qed.

End GamesMenuFacts.

(* ===================================================================== *)
(** * Wrap-around *)
(* ===================================================================== *)

Lemma try_except_IndexError_state {W} (c : M W unit) (w : W) :
  snd (try_except c IndexError (ret tt) w) = snd (c w).
Proof.
  rewrite try_except_IndexError.
  destruct (c w) as [[[] | []] w']; reflexivity.
Qed.

Section HockeyCurrentPage.
Context {S Page : Type} {Src : PageSource S Page}.

(** Once the page is fetched, [current_page] is the requested number,
    whatever the rest of the transition does. *)
Lemma hockey_show_page_current_page (w : World (Hockey.BaseMenu S)) p i page s1 :
  get_page p (Hockey._source (menu w)) = (Ok page, s1) ->
  Hockey.current_page (menu (snd (Hockey.show_page p i w))) = p.
Proof.
  intros Hget. pose proof (hockey_show_page_run w p i) as Hrun.
  cbv zeta in Hrun. rewrite Hget in Hrun.
  destruct (format_page _ page s1) as [[v | e] s2].
  - destruct Hrun as (c & _ & Hrun). cbv zeta in Hrun. rewrite Hrun.
    destruct (kwargs_of v); reflexivity.
  - now rewrite Hrun.
Qed.

End HockeyCurrentPage.

Section GamesCurrentPage.
Context {S Page : Type} {Sch : Hockey.Schedule.Source S Page}.
Variable humanize_list : list string -> string.

(** Once the page is fetched, [current_page] of the games menu is the
    requested number, whatever the rest of the transition does. *)
Lemma games_show_page_current_page (w : World (Hockey.Games.GamesMenu S))
      p i sn sp gid page s1 :
  Hockey.Schedule.get_page p sn sp gid (Hockey.Games.source (menu w))
  = (Ok page, s1) ->
  Hockey.Games.current_page
    (menu (snd (Hockey.Games.show_page humanize_list p i sn sp gid w))) = p.
Proof.
  intros Hget.
  pose proof (games_show_page_run humanize_list w p i sn sp gid) as Hrun.
  cbv zeta in Hrun. rewrite Hget in Hrun.
  destruct (Hockey.Schedule.format_page _ page s1) as [[v | e] s2];
    rewrite Hrun; [destruct (kwargs_of v) |]; reflexivity.
Qed.

(** An IndexError of the source leaves [show_page] before anything of
    the menu but the source has changed. *)
Lemma games_show_page_index_error (w : World (Hockey.Games.GamesMenu S))
      p i sn sp gid s1 :
  Hockey.Schedule.get_page p sn sp gid (Hockey.Games.source (menu w))
  = (Raise IndexError, s1) ->
  Hockey.Games.show_page humanize_list p i sn sp gid w
  = (Raise IndexError,
     {| menu := Hockey.Games.set_source s1 (menu w); sink := sink w |}).
Proof.
  intros Hget.
  pose proof (games_show_page_run humanize_list w p i sn sp gid) as Hrun.
  cbv zeta in Hrun. rewrite Hget in Hrun. exact Hrun.
Qed.

End GamesCurrentPage.

Section Wrap.
Context {S Page : Type} {Src : PageSource S Page}.
Context {T PageT : Type} {SrcT : PageSource T PageT}.
Context {S' Page' : Type} {Sch : Hockey.Schedule.Source S' Page'}.
Hypothesis list_source : ListPageSource Src.
Hypothesis hockey_list_source : ListPageSource SrcT.
Hypothesis keeps_pages : KeepsPages Src.

(** C1, on the code.  For the two [BaseMenu]s over a list source that
    reports [M > 0] pages, requesting page [M] through
    [show_checked_page] leaves [current_page = 0] in both, and
    requesting page [-1] leaves [current_page = M - 1] in the hockey
    menu.  In the destiny menu the request for page [-1] shows the last
    page, but [current_page] becomes [pages.index] of it: the first
    position [k <= M - 1] whose page compares equal to the last one,
    which is [M - 1] only when no earlier page does.  The games menu
    does not look at the length: its checked transition asks the source
    for the requested number itself, whatever it is; when the source
    hands out a page, [current_page] becomes that number, and when it
    raises IndexError the transition returns normally with
    [current_page], the controls and the sink untouched. *)
Theorem checked_page_wraps
        (wd : World (Destiny.BaseMenu S)) (wh : World (Hockey.BaseMenu T))
        (wg : World (Hockey.Games.GamesMenu S'))
        (humanize_list : list string -> string)
        (M n : Z) (i : Interaction)
        (HMd : get_max_pages (Destiny._source (menu wd)) = Some M)
        (HMh : get_max_pages (Hockey._source (menu wh)) = Some M)
        (HM : 0 < M) :
  Hockey.current_page (menu (snd (Hockey.show_checked_page M i wh))) = 0
  /\ Hockey.current_page (menu (snd (Hockey.show_checked_page (-1) i wh)))
     = M - 1
  /\ Destiny.current_page (menu (snd (Destiny.show_checked_page M i wd))) = 0
  /\ (let s := Destiny._source (menu wd) in
      exists last k,
        getitem (entries s) (M - 1) = Ok last
        /\ Destiny.current_page
             (menu (snd (Destiny.show_checked_page (-1) i wd))) = k
        /\ 0 <= k <= M - 1
        /\ (exists y, getitem (entries s) k = Ok y
                      /\ page_eqb s y last = true)
        /\ (forall j y, 0 <= j < k -> getitem (entries s) j = Ok y ->
                        page_eqb s y last = false)
        /\ (k = M - 1 <->
            forall j y, 0 <= j < M - 1 -> getitem (entries s) j = Ok y ->
                        page_eqb s y last = false))
  /\ (forall page s1,
        Hockey.Schedule.get_page n false false None
          (Hockey.Games.source (menu wg)) = (Ok page, s1) ->
        Hockey.Games.current_page
          (menu (snd (Hockey.Games.show_checked_page humanize_list n i wg)))
        = n)
  /\ (forall s1,
        Hockey.Schedule.get_page n false false None
          (Hockey.Games.source (menu wg)) = (Raise IndexError, s1) ->
        Hockey.Games.show_checked_page humanize_list n i wg
        = (Ok tt, {| menu := Hockey.Games.set_source s1 (menu wg);
                     sink := sink wg |})).
Proof.
  assert (Hlend : len (entries (Destiny._source (menu wd))) = M).
  { rewrite (list_max_pages list_source) in HMd. congruence. }
  assert (Hlenh : len (entries (Hockey._source (menu wh))) = M).
  { rewrite (list_max_pages hockey_list_source) in HMh. congruence. }
  assert (Hh : forall p, 0 <= p < M ->
             Hockey.current_page (menu (snd (Hockey.show_page p i wh))) = p).
  { intros p Hp.
    destruct (getitem_in_range (entries (Hockey._source (menu wh))) (n := p))
      as (page & Hget & _); [lia |].
    apply hockey_show_page_current_page with (page := page)
                                              (s1 := Hockey._source (menu wh)).
    now rewrite (list_get_page hockey_list_source), Hget. }
  split; [| split; [| split; [| split; [| split]]]].
  - rewrite hockey_show_checked_page_target, try_except_IndexError_state, HMh.
    unfold spec_goto_target. destruct (Z.leb_spec M M); [| lia]. apply Hh. lia.
  - rewrite hockey_show_checked_page_target, try_except_IndexError_state, HMh.
    unfold spec_goto_target. destruct (Z.leb_spec M (-1)); [lia |].
    cbn. apply Hh. lia.
  - rewrite destiny_show_checked_page_target, try_except_IndexError_state, HMd.
    unfold spec_goto_target. destruct (Z.leb_spec M M); [| lia].
    destruct (destiny_show_page_position list_source keeps_pages wd i (n := 0))
      as (page & k & _ & _ & Hcur & Hk & _); [lia |].
    rewrite Hcur. lia.
  - cbv zeta.
    destruct (destiny_show_page_position list_source keeps_pages wd i
                                         (n := M - 1))
      as (last & k & Hget & _ & Hcur & Hk & Hy & Hbefore & Hiff); [lia |].
    exists last, k. split; [exact Hget |]. split.
    + rewrite destiny_show_checked_page_target, try_except_IndexError_state,
        HMd.
      unfold spec_goto_target. destruct (Z.leb_spec M (-1)); [lia |].
      cbn [Z.ltb Z.compare]. exact Hcur.
    + split; [exact Hk |]. split; [exact Hy |]. split; assumption.
  - intros page s1 Hget. unfold Hockey.Games.show_checked_page.
    rewrite try_except_IndexError_state.
    now apply games_show_page_current_page with (page := page) (s1 := s1).
  - intros s1 Hget. unfold Hockey.Games.show_checked_page.
    rewrite try_except_IndexError.
    now rewrite (games_show_page_index_error humanize_list wg n i false false
                   None Hget).
Qed.

End Wrap.

(* ===================================================================== *)
(** * The authorization gate and the stop button *)
(* ===================================================================== *)

Section Gate.
Context {S Page : Type} {Src : PageSource S Page}.
Context {T PageT : Type} {SrcT : PageSource T PageT}.
Context {S' Page' : Type} {Sch : Hockey.Schedule.Source S' Page'}.

(** C3. In the three menus, for a session whose author was captured and
    an interaction of a user with another id: [interaction_check] sends
    one ephemeral notice, which is no edit, and returns False; the view
    is exactly as before, so [current_page] and the controls keep their
    values; and the view framework, which runs the callback of an item
    only after a True check, runs none, whatever the callback is. *)
Theorem unauthorized_interaction_is_rejected
        (wd : World (Destiny.BaseMenu S)) (wh : World (Hockey.BaseMenu T))
        (wg : World (Hockey.Games.GamesMenu S'))
        (a : User) (i : Interaction)
        (Hd : Destiny.author (menu wd) = Some a)
        (Hh : Hockey.author (menu wh) = Some a)
        (Hg : Hockey.Games.author (menu wg) = Some a)
        (Hother : id (user i) <> id a) :
  let notice := ResponseSendMessage not_authorized true in
  is_edit notice = false
  /\ Destiny.interaction_check i wd
     = (Ok false, {| menu := menu wd; sink := sink wd ++ [notice] |})
  /\ Hockey.interaction_check i wh
     = (Ok false, {| menu := menu wh; sink := sink wh ++ [notice] |})
  /\ Hockey.Games.interaction_check i wg
     = (Ok false, {| menu := menu wg; sink := sink wg ++ [notice] |})
  /\ (forall callback,
         scheduled_task (Destiny.interaction_check i) callback wd
         = (Ok tt, {| menu := menu wd; sink := sink wd ++ [notice] |}))
  /\ (forall callback,
         scheduled_task (Hockey.interaction_check i) callback wh
         = (Ok tt, {| menu := menu wh; sink := sink wh ++ [notice] |}))
  /\ (forall callback,
         scheduled_task (Hockey.Games.interaction_check i) callback wg
         = (Ok tt, {| menu := menu wg; sink := sink wg ++ [notice] |})).
Proof.
  apply Z.eqb_neq in Hother.
  unfold scheduled_task, Destiny.interaction_check, Hockey.interaction_check,
    Hockey.Games.interaction_check.
  coro. rewrite Hd, Hh, Hg, Hother. cbn. repeat split.
Qed.

(** C10. In the two hockey menus, while [author] is [None] the check
    returns True for every interaction, sends nothing and changes
    nothing. *)
Theorem hockey_no_author_admits_everyone
        (wh : World (Hockey.BaseMenu T))
        (wg : World (Hockey.Games.GamesMenu S'))
        (i : Interaction)
        (Hh : Hockey.author (menu wh) = None)
        (Hg : Hockey.Games.author (menu wg) = None) :
  Hockey.interaction_check i wh = (Ok true, wh)
  /\ Hockey.Games.interaction_check i wg = (Ok true, wg).
Proof.
  unfold Hockey.interaction_check, Hockey.Games.interaction_check.
  coro. rewrite Hh, Hg. split; reflexivity.
Qed.

(** C7, as the code has it.  The stop button of the destiny menu stops
    the view and then, for an ephemeral message, edits the view away
    without deleting anything, and otherwise deletes the message of the
    interaction.  The stop button of the hockey menus stops the view and
    deletes the message of the menu, ephemeral or not; it never edits. *)
Theorem stop_button_by_menu
        (wd : World (Destiny.BaseMenu S)) (wh : World (Hockey.BaseMenu T))
        (wg : World (Hockey.Games.GamesMenu S'))
        (i : Interaction) (sent : Z)
        (Hh : Hockey.message (menu wh) = Some sent)
        (Hg : Hockey.Games.message (menu wg) = Some sent) :
  (message_flags_ephemeral i = true ->
   Destiny.StopButton_callback i wd
   = (Ok tt, {| menu := Destiny.set_stopped true (menu wd);
                sink := sink wd ++ [ResponseEditMessage no_kwargs IsNone] |}))
  /\ (message_flags_ephemeral i = false ->
      Destiny.StopButton_callback i wd
      = (Ok tt, {| menu := Destiny.set_stopped true (menu wd);
                   sink := sink wd ++ [MessageDelete (message_id i)] |}))
  /\ Hockey.StopButton_callback i wh
     = (Ok tt, {| menu := Hockey.set_stopped true (menu wh);
                  sink := sink wh ++ [MessageDelete sent] |})
  /\ Hockey.Games.StopButton_callback i wg
     = (Ok tt, {| menu := Hockey.Games.set_stopped true (menu wg);
                  sink := sink wg ++ [MessageDelete sent] |}).
Proof.
  unfold Destiny.StopButton_callback, Hockey.StopButton_callback,
    Hockey.Games.StopButton_callback.
  coro. repeat split.
  - intros ->. reflexivity.
  - intros ->. reflexivity.
  - destruct wh as [[] ?]. cbn in *. now rewrite Hh.
  - destruct wg as [[] ?]. cbn in *. now rewrite Hg.
Qed.

End Gate.

(* ===================================================================== *)
(** * The controls after a transition *)
(* ===================================================================== *)

Section ControlsAfter.
Context {S Page : Type} {Src : PageSource S Page}.
Context {T PageT : Type} {SrcT : PageSource T PageT}.
Context {S' Page' : Type} {Sch : Hockey.Schedule.Source S' Page'}.

(** How a completed transition of the destiny menu ends. *)
Lemma destiny_show_page_done (w w' : World (Destiny.BaseMenu S)) p i :
  Destiny.show_page p i w = (Ok tt, w') ->
  exists page s1 idx v s2 k,
    get_page p (Destiny._source (menu w)) = (Ok page, s1)
    /\ index (page_eqb s1) (pages s1) page = Ok idx
    /\ format_page {| ctx_current_page := idx;
                      ctx_author := Destiny.author (menu w) |} page s1
       = (Ok v, s2)
    /\ kwargs_of v = Some k
    /\ let m1 := Destiny.set_source s1 (menu w) in
       let m4 := Destiny.set_source s2
                   (Destiny.set_current_page idx
                      (Destiny.set_controls (destiny_select_step m1 p) m1)) in
       let m5 := Destiny.set_controls
                   (checked_controls (len (entries s2) =? 1)
                      (Destiny.has_select_options m4) (Destiny.controls m4))
                   m4 in
       (Destiny.has_select_options m4 = true ->
        exists sel, select_view (Destiny.controls m4) = Some sel)
       /\ w' = {| menu := m5;
                  sink := sink w
                          ++ [ResponseEditMessage k
                                (Val (Destiny.view_of m5))] |}.
Proof.
  intros Hdone. pose proof (destiny_show_page_run w p i) as Hrun.
  cbv zeta in Hrun.
  destruct (get_page p _) as [[page | e] s1] eqn:Hget; [| congruence].
  destruct (index _ _ page) as [idx | e] eqn:Hidx; [| congruence].
  destruct (format_page _ page s1) as [[v | e] s2] eqn:Hfmt; [| congruence].
  rewrite Hdone in Hrun.
  exists page, s1, idx, v, s2.
  set (m4 := Destiny.set_source s2 _) in *.
  destruct (kwargs_of v) as [k |] eqn:Hk.
  - exists k. split; [reflexivity |]. split; [exact Hidx |].
    split; [exact Hfmt |]. split; [reflexivity |]. cbv zeta. fold m4.
    destruct (Destiny.has_select_options m4) eqn:Hhas;
      [destruct (select_view (Destiny.controls m4)) as [sel |] eqn:Hsel |].
    + split; [intros _; now exists sel | congruence].
    + discriminate.
    + split; [discriminate | congruence].
  - destruct (Destiny.has_select_options m4);
      [destruct (select_view (Destiny.controls m4)) |]; discriminate.
Qed.

(** C5, as the code has it.  After a completed transition of the
    destiny menu the first, last, back and forward buttons, and the
    select when the source has options, are disabled when the source has
    exactly one entry and enabled otherwise, whatever the page, and the
    edit of the message carries them so.  A transition of the hockey
    [BaseMenu] leaves the four buttons in the state they were in,
    whether it completes or not.  When it completes over a source with
    options, the select of the menu is a fresh, enabled one over the
    clipped window of the requested page; it is attached after the
    other items, in place of the select attached before, and the one
    edit the transition sends carries it.  Nothing of this looks at the
    number of entries: nothing is disabled for a source with one
    entry. *)
Theorem navigation_disabled_by_menu
        (wd wd' : World (Destiny.BaseMenu S)) (wh : World (Hockey.BaseMenu T))
        (p : Z) (i : Interaction)
        (Hdone : Destiny.show_page p i wd = (Ok tt, wd')) :
  let b := len (entries (Destiny._source (menu wd'))) =? 1 in
  let c := Destiny.controls (menu wd') in
  let ch := Hockey.controls (menu wh) in
  let ch' := Hockey.controls (menu (snd (Hockey.show_page p i wh))) in
  disabled (first_item c) = b
  /\ disabled (last_item c) = b
  /\ disabled (back_button c) = b
  /\ disabled (forward_button c) = b
  /\ match select_options (Destiny._source (menu wd')) with
     | Some _ => exists sel, select_view c = Some sel
                             /\ select_disabled sel = b
     | None => True
     end
  /\ (exists k, sink wd' = sink wd
                           ++ [ResponseEditMessage k
                                 (Val (Destiny.view_of (menu wd')))])
  /\ first_item ch' = first_item ch
  /\ last_item ch' = last_item ch
  /\ back_button ch' = back_button ch
  /\ forward_button ch' = forward_button ch
  /\ (forall wh' opts,
        Hockey.show_page p i wh = (Ok tt, wh') ->
        select_options (Hockey._source (menu wh')) = Some opts ->
        let sel := new_select (clipped_select_window opts p) in
        select_view (Hockey.controls (menu wh')) = Some sel
        /\ select_disabled sel = false
        /\ children (Hockey.controls (menu wh'))
           = match select_view ch with
             | Some _ => remove_first Ref_select_view (children ch)
             | None => children ch
             end ++ [Ref_select_view]
        /\ In (ISelect sel) (Hockey.view_of (menu wh'))
        /\ exists k, sink wh' = sink wh ++ [hockey_edit_event i k (menu wh')])
  /\ (forall wh',
        Hockey.show_page p i wh = (Ok tt, wh') ->
        select_options (Hockey._source (menu wh')) = None ->
        select_view (Hockey.controls (menu wh')) = select_view ch).
Proof.
  apply destiny_show_page_done in Hdone.
  destruct Hdone
    as (page & s1 & idx & v & s2 & k & _ & _ & _ & _ & Hsel & ->).
  cbv zeta. cbn [menu sink].
  assert (Hkept :
    first_item (Hockey.controls (menu (snd (Hockey.show_page p i wh))))
    = first_item (Hockey.controls (menu wh))
    /\ last_item (Hockey.controls (menu (snd (Hockey.show_page p i wh))))
       = last_item (Hockey.controls (menu wh))
    /\ back_button (Hockey.controls (menu (snd (Hockey.show_page p i wh))))
       = back_button (Hockey.controls (menu wh))
    /\ forward_button (Hockey.controls (menu (snd (Hockey.show_page p i wh))))
       = forward_button (Hockey.controls (menu wh))).
  { pose proof (hockey_show_page_run wh p i) as Hrun. cbv zeta in Hrun.
    destruct (get_page p _) as [[pg | e] t1];
      [| rewrite Hrun; repeat split].
    destruct (format_page _ pg t1) as [[u | e] t2];
      [| rewrite Hrun; repeat split].
    destruct Hrun as (c' & Hc & Hrun). cbv zeta in Hrun. rewrite Hrun.
    destruct Hc as (H1 & H2 & H3 & H4 & _).
    destruct (kwargs_of u); repeat split; assumption. }
  destruct Hkept as (Hk1 & Hk2 & Hk3 & Hk4).
  unfold checked_controls, Destiny.has_select_options in *. cbn in *.
  repeat match goal with |- _ /\ _ => split end; try assumption.
  1-4: destruct (select_options s2);
    [destruct (Hsel eq_refl) as [sel ->] |
     destruct (select_view (destiny_select_step _ p))]; reflexivity.
  - destruct (select_options s2); [| exact I].
    destruct (Hsel eq_refl) as [sel ->]. eexists. split; reflexivity.
  - exists k. reflexivity.
  - intros wh' opts Hhdone Hopts.
    apply hockey_show_page_done in Hhdone.
    destruct Hhdone as (pg & t1 & u & t2 & kh & _ & _ & _ & ->).
    cbv zeta in *. destruct wh as [[src ps cp au msg st ch] tr].
    unfold hockey_select_step, Hockey.view_of in *. cbn in *.
    rewrite Hopts. cbn.
    split; [reflexivity |]. split; [reflexivity |].
    split; [now destruct (select_view ch) |]. split.
    + apply in_flat_map. exists Ref_select_view. split.
      * apply in_or_app. right. now left.
      * now left.
    + exists kh. reflexivity.
  - intros wh' Hhdone Hopts.
    apply hockey_show_page_done in Hhdone.
    destruct Hhdone as (pg & t1 & u & t2 & kh & _ & _ & _ & ->).
    cbv zeta in *. destruct wh as [[src ps cp au msg st ch] tr].
    unfold hockey_select_step in *. cbn in *. rewrite Hopts.
    destruct (select_view ch) eqn:Hold; [cbn |]; exact Hold.
Qed.

End ControlsAfter.

(* ===================================================================== *)
(** * The select after a transition *)
(* ===================================================================== *)

Section SelectAfter.
Context {S Page : Type} {Src : PageSource S Page}.
Context {T PageT : Type} {SrcT : PageSource T PageT}.
Context {S' Page' : Type} {Sch : Hockey.Schedule.Source S' Page'}.
Variable humanize_list : list string -> string.

(** In the games menu the controls are settled as soon as the page is
    fetched: whatever the rest of the transition does, they are the ones
    the look at the select leaves. *)
Lemma games_show_page_controls (w : World (Hockey.Games.GamesMenu S'))
      p i sn sp gid page s1 :
  Hockey.Schedule.get_page p sn sp gid (Hockey.Games.source (menu w))
  = (Ok page, s1) ->
  Hockey.Games.controls
    (menu (snd (Hockey.Games.show_page humanize_list p i sn sp gid w)))
  = games_select_step (Hockey.Games.set_source s1 (menu w)) p.
Proof.
  intros Hget.
  pose proof (games_show_page_run humanize_list w p i sn sp gid) as Hrun.
  cbv zeta in Hrun. rewrite Hget in Hrun.
  destruct (Hockey.Schedule.format_page _ page s1) as [[v | e] s2];
    rewrite Hrun; [destruct (kwargs_of v) |]; reflexivity.
Qed.

(** With several options the select is over the clipped window of the
    requested page. *)
Lemma games_show_page_select (w : World (Hockey.Games.GamesMenu S'))
      p i sn sp gid page s1 opts :
  Hockey.Schedule.get_page p sn sp gid (Hockey.Games.source (menu w))
  = (Ok page, s1) ->
  Hockey.Schedule.select_options s1 = Some opts ->
  1 < len opts ->
  select_view
    (Hockey.Games.controls
       (menu (snd (Hockey.Games.show_page humanize_list p i sn sp gid w))))
  = Some (new_select (clipped_select_window opts p)).
Proof.
  intros Hget Hopts Hlen.
  rewrite (games_show_page_controls w p i sn sp gid Hget).
  unfold games_select_step, Hockey.Games.several_options.
  destruct w as [[src cp au msg st c b1 b2 b3 b4] tr]. cbn. rewrite Hopts.
  destruct (Z.ltb_spec 1 (len opts)); [| lia].
  destruct (select_view c); reflexivity.
Qed.

(** C2, as the code has it.  In the destiny menu the select built by
    [_get_select_menu] is over the window of the design at
    [current_page]: all options up to 25, options [c-12, c+13) when
    [12 < c < L - 25], the last 25 when [c >= L - 25], the first 25
    otherwise, so exactly 25 options as soon as there are more than 25.
    In the hockey menus the select is over the first 25 options before
    page 12 and over options [p-12, p+13) from page 12 on, cut where the
    options end: from page 12 on it holds [min(25, L - (p - 12))]
    options (none past the end), fewer than 25 once [p + 13 > L].  The
    hockey [BaseMenu] builds it in [update_select_view] whenever the
    source has options.  [GamesMenu.show_page] builds it once the page
    is fetched and only for a source with more than one option; with one
    option or without options it builds no select and leaves the
    controls, an attached select among them, as they were. *)
Theorem select_window_by_menu
        (md : Destiny.BaseMenu S) (wh : World (Hockey.BaseMenu T))
        (wg : World (Hockey.Games.GamesMenu S'))
        (optsd optsh : list SelectOption) (p : Z) (i : Interaction)
        (skip_next skip_prev : bool) (game_id : option Z)
        (page : Page') (s1 : S')
        (Hd : select_options (Destiny._source md) = Some optsd)
        (Hh : select_options (Hockey._source (menu wh)) = Some optsh)
        (Hg : Hockey.Schedule.get_page p skip_next skip_prev game_id
                (Hockey.Games.source (menu wg)) = (Ok page, s1)) :
  let cg := Hockey.Games.controls
              (menu (snd (Hockey.Games.show_page humanize_list p i skip_next
                            skip_prev game_id wg))) in
  Destiny._get_select_menu md
  = Some (new_select (spec_select_window optsd (Destiny.current_page md)))
  /\ (25 < len optsd ->
      List.length (spec_select_window optsd (Destiny.current_page md))
      = 25%nat)
  /\ select_view
       (Hockey.controls (menu (snd (Hockey.update_select_view p wh))))
     = Some (new_select (clipped_select_window optsh p))
  /\ match Hockey.Schedule.select_options s1 with
     | Some optsg =>
         if 1 <? len optsg
         then select_view cg
              = Some (new_select (clipped_select_window optsg p))
              /\ exists rest, children cg = rest ++ [Ref_select_view]
         else cg = Hockey.Games.controls (menu wg)
     | None => cg = Hockey.Games.controls (menu wg)
     end
  /\ (forall opts : list SelectOption,
         clipped_select_window opts p
         = (if p <? 12 then firstn 25 opts
            else firstn 25 (skipn (Z.to_nat (p - 12)) opts))
         /\ Z.of_nat (List.length (clipped_select_window opts p))
            = (if p <? 12 then Z.min 25 (len opts)
               else Z.max 0 (Z.min 25 (len opts - (p - 12))))).
Proof.
  intros cg.
  split; [now apply get_select_menu_window |].
  split; [apply spec_select_window_length |].
  split.
  - destruct (hockey_update_select_view wh p) as (c & -> & Hc).
    destruct Hc as (_ & _ & _ & _ & _ & Hc). cbn. now rewrite Hc, Hh.
  - split.
    + subst cg.
      rewrite (games_show_page_controls wg p i skip_next skip_prev game_id Hg).
      unfold games_select_step, Hockey.Games.several_options.
      destruct wg as [[src cp au msg st c b1 b2 b3 b4] tr]. cbn.
      destruct (Hockey.Schedule.select_options s1) as [optsg |];
        [| reflexivity].
      destruct (1 <? len optsg); [| reflexivity].
      split; [now destruct (select_view c) |].
      eexists. unfold add_item. cbn. reflexivity.
    + intros opts. split; [reflexivity |].
      apply clipped_select_window_size.
Qed.

(** After a completed transition of the hockey [BaseMenu] the page is
    the requested one and the select, for a source with options, is over
    the clipped window of that page. *)
Lemma hockey_select_follows_page (w w' : World (Hockey.BaseMenu T)) p i opts :
  Hockey.show_page p i w = (Ok tt, w') ->
  select_options (Hockey._source (menu w')) = Some opts ->
  Hockey.current_page (menu w') = p
  /\ select_view (Hockey.controls (menu w'))
     = Some (new_select (clipped_select_window opts p)).
Proof.
  intros Hdone Hopts.
  pose proof (hockey_show_page_run w p i) as Hrun. cbv zeta in Hrun.
  destruct (get_page p _) as [[page | e] s1]; [| congruence].
  destruct (format_page _ page s1) as [[v | e] s2]; [| congruence].
  destruct Hrun as (c & Hc & Hrun). cbv zeta in Hrun.
  rewrite Hdone in Hrun.
  destruct (kwargs_of v); [| discriminate].
  injection Hrun as ->. cbn in *. split; [reflexivity |].
  destruct Hc as (_ & _ & _ & _ & _ & Hc). rewrite Hc.
  destruct w as [[] ?]. cbn in *. now rewrite Hopts.
Qed.

(** After a completed transition of the destiny menu the select is the
    one from before when the requested page is below 12, and otherwise
    one over the window of the page the menu was on before. *)
Lemma destiny_select_after (w w' : World (Destiny.BaseMenu S)) p i :
  Destiny.show_page p i w = (Ok tt, w') ->
  option_map (@options) (select_view (Destiny.controls (menu w')))
  = if 12 <=? p
    then match select_options (snd (get_page p (Destiny._source (menu w)))) with
         | Some opts =>
             Some (spec_select_window opts (Destiny.current_page (menu w)))
         | None =>
             option_map (@options) (select_view (Destiny.controls (menu w)))
         end
    else option_map (@options) (select_view (Destiny.controls (menu w))).
Proof.
  intros Hdone. apply destiny_show_page_done in Hdone.
  destruct Hdone
    as (page & s1 & idx & v & s2 & k & Hget & _ & _ & _ & Hsel & ->).
  rewrite Hget. cbn [menu].
  assert (Hstep :
    option_map (@options)
      (select_view (destiny_select_step (Destiny.set_source s1 (menu w)) p))
    = if 12 <=? p
      then match select_options s1 with
           | Some opts =>
               Some (spec_select_window opts (Destiny.current_page (menu w)))
           | None =>
               option_map (@options) (select_view (Destiny.controls (menu w)))
           end
      else option_map (@options) (select_view (Destiny.controls (menu w)))).
  { unfold destiny_select_step, Destiny.has_select_options.
    destruct w as [[src cp au st c] tr]. cbn.
    destruct (select_options s1) as [opts |] eqn:Hopts; cbn;
      [| now destruct (12 <=? p)].
    destruct (12 <=? p); [| reflexivity].
    erewrite get_select_menu_window by exact Hopts. reflexivity. }
  unfold checked_controls, Destiny.has_select_options in *.
  destruct w as [[src cp au st c] tr]. cbn in *.
  destruct (select_options s2); cbn.
  - destruct (Hsel eq_refl) as [sel Hs]. rewrite Hs in *. cbn in *.
    now rewrite <- Hstep.
  - destruct (select_view (destiny_select_step _ p)) eqn:Hs; cbn in *;
      now rewrite <- Hstep.
Qed.

End SelectAfter.

(* ===================================================================== *)
(** * The properties on the sessions *)
(* ===================================================================== *)

Import Sessions.
#[local] Existing Instance Destiny.BasePages.source.
#[local] Existing Instance Sessions.players.
#[local] Existing Instance Sessions.feed.
#[local] Existing Instance Sessions.fixtures.

(** ** The list sources are list sources *)

Lemma base_pages_list_source : ListPageSource Destiny.BasePages.source.
Proof. split; reflexivity. Qed.

Lemma base_pages_keeps_pages : KeepsPages Destiny.BasePages.source.
Proof.
  split; [reflexivity |].
  intros s page. cbn. unfold Destiny.BasePages.page_eqb.
  now rewrite Nat.eqb_refl.
Qed.

Lemma player_pages_list_source : ListPageSource players.
Proof. split; reflexivity. Qed.

(** ** Wrap-around (C1) *)

(** Three distinct pages in the destiny and the hockey menu: page 3
    wraps to 0 and page -1 to 2.  The games menu of the week, moved to
    its page 1: asked for page 3, one past its three games, it stays on
    page 1, and asked for page 2 it moves there. *)
Lemma checked_page_wraps_witness :
  (get_max_pages (Destiny._source (menu (destiny_session (numbered_pages 3))))
   = Some 3
   /\ get_max_pages (Hockey._source (menu (hockey_session 3))) = Some 3
   /\ 0 < 3)
  /\ Hockey.current_page
       (menu (snd (Hockey.show_checked_page 3 (press alice false)
                     (hockey_session 3)))) = 0
  /\ Hockey.current_page
       (menu (snd (Hockey.show_checked_page (-1) (press alice false)
                     (hockey_session 3)))) = 3 - 1
  /\ Destiny.current_page
       (menu (snd (Destiny.show_checked_page 3 (press alice false)
                     (destiny_session (numbered_pages 3))))) = 0
  /\ Hockey.Games.current_page (menu games_session_on_page_1) = 1
  /\ Hockey.Schedule.get_page 3 false false None
       (Hockey.Games.source (menu games_session_on_page_1))
     = (Raise IndexError, week [])
  /\ Hockey.Games.show_checked_page humanize_list 3 (press alice false)
       games_session_on_page_1
     = (Ok tt,
        {| menu := Hockey.Games.set_source (week [])
                     (menu games_session_on_page_1);
           sink := sink games_session_on_page_1 |})
  /\ Hockey.Games.current_page
       (menu (snd (Hockey.Games.show_checked_page humanize_list 3
                     (press alice false) games_session_on_page_1))) = 1
  /\ Hockey.Games.current_page
       (menu (snd (Hockey.Games.show_checked_page humanize_list 2
                     (press alice false) games_session_on_page_1))) = 2.
Proof.
  assert (Hout : Hockey.Schedule.get_page 3 false false None
                   (Hockey.Games.source (menu games_session_on_page_1))
                 = (Raise IndexError, week []))
    by (vm_compute; reflexivity).
  assert (Hin : Hockey.Schedule.get_page 2 false false None
                  (Hockey.Games.source (menu games_session_on_page_1))
                = (Ok ("Bruins", "Habs at Bruins"), week []))
    by (vm_compute; reflexivity).
  assert (Hone : Hockey.Games.current_page (menu games_session_on_page_1) = 1)
    by (vm_compute; reflexivity).
  split; [repeat split; reflexivity |].
  destruct (checked_page_wraps
              base_pages_list_source player_pages_list_source
              base_pages_keeps_pages
              (destiny_session (numbered_pages 3)) (hockey_session 3)
              games_session_on_page_1 humanize_list 3 (press alice false)
              (M := 3) eq_refl eq_refl eq_refl)
    as (H1 & H2 & H3 & _ & _ & H6).
  destruct (checked_page_wraps
              base_pages_list_source player_pages_list_source
              base_pages_keeps_pages
              (destiny_session (numbered_pages 3)) (hockey_session 3)
              games_session_on_page_1 humanize_list 2 (press alice false)
              (M := 3) eq_refl eq_refl eq_refl)
    as (_ & _ & _ & _ & H5 & _).
  assert (Hstay :
    Hockey.Games.current_page
      (menu (snd (Hockey.Games.show_checked_page humanize_list 3
                    (press alice false) games_session_on_page_1))) = 1)
    by (vm_compute; reflexivity).
  exact (conj H1 (conj H2 (conj H3
           (conj Hone (conj Hout (conj (H6 _ Hout)
              (conj Hstay (H5 _ _ Hin)))))))).
Defined.

(** In the destiny menu over three pages of which the last two are
    equal embeds, started on page 0, the back button asks for page -1:
    the last page is shown, but [current_page] becomes 1, the position
    of the first of the two equal embeds, and not [M - 1 = 2].  The same
    happens when the last two pages are one embed listed twice. *)
Lemma destiny_wrap_to_last_counterexample :
  get_max_pages (Destiny._source (menu (destiny_session pages_with_duplicate)))
  = Some 3
  /\ fst (Destiny.show_checked_page (-1) (press alice false)
            (destiny_session pages_with_duplicate)) = Ok tt
  /\ Destiny.current_page
       (menu (snd (Destiny.show_checked_page (-1) (press alice false)
                     (destiny_session pages_with_duplicate)))) = 1
  /\ Destiny.current_page
       (menu (snd (Destiny.show_checked_page (-1) (press alice false)
                     (destiny_session pages_with_duplicate)))) <> 3 - 1
  /\ get_max_pages (Destiny._source (menu (destiny_session pages_with_repeat)))
     = Some 3
  /\ Destiny.current_page
       (menu (snd (Destiny.BackButton_callback (press alice false)
                     (destiny_session pages_with_repeat)))) = 1.
Proof.
  split; [reflexivity |]. split; [reflexivity |]. split; [reflexivity |].
  split; [vm_compute; discriminate |]. split; reflexivity.
Qed.

(** ** The position of the fetched page (C9) *)

(** The same menu asked for page 2 directly. *)
Lemma destiny_current_page_is_first_equal_page_witness :
  0 <= 2 < len (entries (Destiny._source
                           (menu (destiny_session pages_with_duplicate))))
  /\ exists (page : nat) (k : Z),
      getitem (entries (Destiny._source
                          (menu (destiny_session pages_with_duplicate)))) 2
      = Ok page
      /\ Destiny.current_page
           (menu (snd (Destiny.show_page 2 (press alice false)
                         (destiny_session pages_with_duplicate)))) = k
      /\ 0 <= k <= 2.
Proof.
  assert (Hn : 0 <= 2 < len (entries
                          (Destiny._source
                             (menu (destiny_session pages_with_duplicate)))))
    by (vm_compute; split; [discriminate | reflexivity]).
  split; [exact Hn |].
  destruct (destiny_current_page_is_first_equal_page
              base_pages_list_source base_pages_keeps_pages
              (destiny_session pages_with_duplicate) (press alice false) Hn)
    as (page & k & Hget & _ & Hcur & Hk & _).
  exists page, k. exact (conj Hget (conj Hcur Hk)).
Defined.

(** ** The select window (C2, C8) *)

(** Forty pages in the destiny menu, thirty players in the hockey menu
    and the three games of the week, each asked for page 1; and the
    games menu over the one game of the Oilers asked for page 0, where
    no select is built. *)
Lemma select_window_by_menu_witness :
  (select_options
     (Destiny._source (menu (destiny_session (numbered_pages 40))))
   = Some (Destiny.BasePages.select_options (numbered_pages 40))
   /\ select_options (Hockey._source (menu (hockey_session 30)))
      = Some (Hockey.PlayerPages.select_options (roster 30))
   /\ Hockey.Schedule.get_page 1 false false None
        (Hockey.Games.source (menu (games_session [])))
      = (Ok ("Oilers", "Oilers at Flames"), week [])
   /\ Hockey.Schedule.get_page 0 false false None
        (Hockey.Games.source (menu (games_session ["Oilers"])))
      = (Ok ("Oilers", "Oilers at Flames"), week ["Oilers"]))
  /\ List.length
       (spec_select_window
          (Destiny.BasePages.select_options (numbered_pages 40))
          (Destiny.current_page (menu (destiny_session (numbered_pages 40)))))
     = 25%nat
  /\ select_view
       (Hockey.controls
          (menu (snd (Hockey.update_select_view 1 (hockey_session 30)))))
     = Some (new_select
               (clipped_select_window
                  (Hockey.PlayerPages.select_options (roster 30)) 1))
  /\ select_view
       (Hockey.Games.controls
          (menu (snd (Hockey.Games.show_page humanize_list 1
                        (press alice false) false false None
                        (games_session [])))))
     = Some (new_select (clipped_select_window (game_options (week [])) 1))
  /\ Hockey.Games.controls
       (menu (snd (Hockey.Games.show_page humanize_list 0
                     (press alice false) false false None
                     (games_session ["Oilers"]))))
     = Hockey.Games.controls (menu (games_session ["Oilers"]))
  /\ select_view (Hockey.Games.controls (menu (games_session ["Oilers"])))
     = None.
Proof.
  assert (Hd : select_options
                 (Destiny._source (menu (destiny_session (numbered_pages 40))))
               = Some (Destiny.BasePages.select_options (numbered_pages 40)))
    by (vm_compute; reflexivity).
  assert (Hh : select_options (Hockey._source (menu (hockey_session 30)))
               = Some (Hockey.PlayerPages.select_options (roster 30)))
    by (vm_compute; reflexivity).
  assert (Hg : Hockey.Schedule.get_page 1 false false None
                 (Hockey.Games.source (menu (games_session [])))
               = (Ok ("Oilers", "Oilers at Flames"), week []))
    by (vm_compute; reflexivity).
  assert (Hg1 : Hockey.Schedule.get_page 0 false false None
                  (Hockey.Games.source (menu (games_session ["Oilers"])))
                = (Ok ("Oilers", "Oilers at Flames"), week ["Oilers"]))
    by (vm_compute; reflexivity).
  split; [exact (conj Hd (conj Hh (conj Hg Hg1))) |].
  pose proof (select_window_by_menu humanize_list
                (menu (destiny_session (numbered_pages 40)))
                (hockey_session 30) (games_session []) 1 (press alice false)
                false false None Hd Hh Hg) as Hall.
  pose proof (select_window_by_menu humanize_list
                (menu (destiny_session (numbered_pages 40)))
                (hockey_session 30) (games_session ["Oilers"]) 0
                (press alice false) false false None Hd Hh Hg1) as Hone.
  cbv zeta in Hall, Hone.
  destruct Hall as (_ & H2 & H3 & H4 & _).
  destruct Hone as (_ & _ & _ & H5 & _).
  destruct H4 as [H4 _].
  exact (conj (H2 eq_refl) (conj H3 (conj H4 (conj H5 eq_refl)))).
Defined.

(** In the hockey menu over thirty players, page 20 leaves a select of
    22 options, the players 8 to 29, and not the last 25. *)
Lemma hockey_select_window_counterexample :
  fst (Hockey.show_page 20 (press alice false) (hockey_session 30)) = Ok tt
  /\ 25 < len (Hockey.PlayerPages.select_options (roster 30))
  /\ option_map (fun sel => map value (options sel))
       (select_view
          (Hockey.controls
             (menu (snd (Hockey.show_page 20 (press alice false)
                           (hockey_session 30))))))
     = Some (map (fun k => 8470000 + Z.of_nat k) (seq 8 22))
  /\ option_map (fun sel => List.length (options sel))
       (select_view
          (Hockey.controls
             (menu (snd (Hockey.show_page 20 (press alice false)
                           (hockey_session 30))))))
     <> Some 25%nat.
Proof.
  split; [reflexivity |]. split; [reflexivity |].
  split; [reflexivity |]. vm_compute. discriminate.
Qed.

(** C8, on the code.  The destiny menu over forty distinct pages,
    started on page 0 and sent to page 30: the transition completes and
    [current_page] is 30, but the select holds the options of the pages
    0 to 24, the window of the page the menu was on before, where the
    window of page 30 is that of the pages 15 to 39.  Sent on to page 35
    and then back to page 3, the select holds the pages 15 to 39, which
    is neither the window of page 3 nor has page 3 in it: below page 12
    the select is not rebuilt. *)
Theorem destiny_select_window_is_stale :
  let far := Destiny.show_page 30 (press alice false)
               (destiny_session (numbered_pages 40)) in
  let back := Destiny.show_page 3 (press alice false)
                (snd (Destiny.show_page 35 (press alice false) (snd far))) in
  let shown w := option_map (fun sel => map value (options sel))
                   (select_view (Destiny.controls
                                   (menu (w : World (Destiny.BaseMenu _))))) in
  let window c := map value
                    (spec_select_window
                       (Destiny.BasePages.select_options (numbered_pages 40))
                       c) in
  fst far = Ok tt
  /\ Destiny.current_page (menu (snd far)) = 30
  /\ shown (snd far) = Some (map Z.of_nat (seq 0 25))
  /\ window 30 = map Z.of_nat (seq 15 25)
  /\ fst back = Ok tt
  /\ Destiny.current_page (menu (snd back)) = 3
  /\ shown (snd back) = Some (map Z.of_nat (seq 15 25))
  /\ window 3 = map Z.of_nat (seq 0 25).
Proof. vm_compute. repeat split. Qed.

(** ** The authorization gate (C3, C10) *)

(** Bob presses an item of the menus alice started. *)
Lemma unauthorized_interaction_is_rejected_witness :
  (Destiny.author (menu (destiny_session (numbered_pages 3))) = Some alice
   /\ Hockey.author (menu (hockey_session 3)) = Some alice
   /\ Hockey.Games.author (menu (games_session [])) = Some alice
   /\ id (user (press bob false)) <> id alice)
  /\ Destiny.interaction_check (press bob false)
       (destiny_session (numbered_pages 3))
     = (Ok false,
        {| menu := menu (destiny_session (numbered_pages 3));
           sink := sink (destiny_session (numbered_pages 3))
                   ++ [ResponseSendMessage not_authorized true] |})
  /\ scheduled_task (Hockey.interaction_check (press bob false))
       (Hockey.ForwardButton_callback (press bob false)) (hockey_session 3)
     = (Ok tt,
        {| menu := menu (hockey_session 3);
           sink := sink (hockey_session 3)
                   ++ [ResponseSendMessage not_authorized true] |}).
Proof.
  assert (Hother : id (user (press bob false)) <> id alice)
    by (vm_compute; discriminate).
  split; [exact (conj eq_refl (conj eq_refl (conj eq_refl Hother))) |].
  destruct (unauthorized_interaction_is_rejected
              (destiny_session (numbered_pages 3)) (hockey_session 3)
              (games_session []) (press bob false)
              (a := alice) eq_refl eq_refl eq_refl Hother)
    as (_ & H1 & _ & _ & _ & H2 & _).
  exact (conj H1 (H2 _)).
Defined.

(** The hockey menus before [start] has run: no author yet. *)
Lemma hockey_no_author_admits_everyone_witness :
  (Hockey.author (menu (hockey_menu 3)) = None
   /\ Hockey.Games.author (menu (games_menu [])) = None)
  /\ Hockey.interaction_check (press bob false) (hockey_menu 3)
     = (Ok true, hockey_menu 3)
  /\ Hockey.Games.interaction_check (press bob false) (games_menu [])
     = (Ok true, games_menu []).
Proof.
  split; [split; reflexivity |].
  exact (hockey_no_author_admits_everyone (hockey_menu 3) (games_menu [])
           (press bob false) eq_refl eq_refl).
Defined.

(** ** No schedule (C4) *)

(** The week filtered for a team that does not play. *)
Lemma no_schedule_keeps_page_and_controls_witness :
  Hockey.Schedule.get_page 1 false false None
    (Hockey.Games.source (menu (games_session ["Sharks"])))
  = (Raise NoSchedule, week ["Sharks"])
  /\ Hockey.Games.show_page humanize_list 1 (press alice false)
       false false None (games_session ["Sharks"])
     = (Ok tt,
        {| menu := menu (games_session ["Sharks"]);
           sink :=
             sink (games_session ["Sharks"])
             ++ [ResponseEditMessage
                   {| content :=
                        Val "No schedule could be found for Sharks in dates between 2022-10-07 to 2022-10-14";
                      embed := IsNone |}
                   (Val (Hockey.Games.view_of
                           (menu (games_session ["Sharks"]))))] |}).
Proof.
  assert (Hraise : Hockey.Schedule.get_page 1 false false None
                     (Hockey.Games.source (menu (games_session ["Sharks"])))
                   = (Raise NoSchedule, week ["Sharks"]))
    by (vm_compute; reflexivity).
  split; [exact Hraise |].
  destruct (no_schedule_keeps_page_and_controls humanize_list
              (games_session ["Sharks"]) 1 (press alice false)
              false false None Hraise)
    as (H & _).
  exact H.
Defined.

(** ** The controls after a transition (C5) *)

(** One page in the destiny menu, one player in the hockey menu: the
    destiny menu disables its forward button, the hockey menu keeps its
    own as it was and attaches a fresh select over the one player. *)
Lemma navigation_disabled_by_menu_witness :
  Destiny.show_page 0 (press alice false) (destiny_session (numbered_pages 1))
  = (Ok tt, snd (Destiny.show_page 0 (press alice false)
                   (destiny_session (numbered_pages 1))))
  /\ disabled
       (forward_button
          (Destiny.controls
             (menu (snd (Destiny.show_page 0 (press alice false)
                           (destiny_session (numbered_pages 1)))))))
     = true
  /\ forward_button
       (Hockey.controls
          (menu (snd (Hockey.show_page 0 (press alice false)
                        (hockey_session 1)))))
     = forward_button (Hockey.controls (menu (hockey_session 1)))
  /\ Hockey.show_page 0 (press alice false) (hockey_session 1)
     = (Ok tt, snd (Hockey.show_page 0 (press alice false) (hockey_session 1)))
  /\ select_view
       (Hockey.controls
          (menu (snd (Hockey.show_page 0 (press alice false)
                        (hockey_session 1)))))
     = Some (new_select
               (clipped_select_window
                  (Hockey.PlayerPages.select_options (roster 1)) 0))
  /\ In (ISelect
           (new_select
              (clipped_select_window
                 (Hockey.PlayerPages.select_options (roster 1)) 0)))
        (Hockey.view_of
           (menu (snd (Hockey.show_page 0 (press alice false)
                         (hockey_session 1))))).
Proof.
  assert (Hdone : Destiny.show_page 0 (press alice false)
                    (destiny_session (numbered_pages 1))
                  = (Ok tt, snd (Destiny.show_page 0 (press alice false)
                                   (destiny_session (numbered_pages 1)))))
    by (vm_compute; reflexivity).
  assert (Hhdone : Hockey.show_page 0 (press alice false) (hockey_session 1)
                   = (Ok tt, snd (Hockey.show_page 0 (press alice false)
                                    (hockey_session 1))))
    by (vm_compute; reflexivity).
  assert (Hopts : select_options
                    (Hockey._source
                       (menu (snd (Hockey.show_page 0 (press alice false)
                                     (hockey_session 1)))))
                  = Some (Hockey.PlayerPages.select_options (roster 1)))
    by (vm_compute; reflexivity).
  split; [exact Hdone |].
  destruct (navigation_disabled_by_menu
              (destiny_session (numbered_pages 1)) (hockey_session 1)
              0 (press alice false) Hdone)
    as (_ & _ & _ & H4 & _ & _ & _ & _ & _ & H10 & H11 & _).
  destruct (H11 _ _ Hhdone Hopts) as (Hs & _ & _ & Hin & _).
  exact (conj H4 (conj H10 (conj Hhdone (conj Hs Hin)))).
Defined.

(** In the hockey menu over a single player the transition to page 0
    completes and the back, forward, first and last buttons and the
    select are all enabled in the view the edit carries. *)
Lemma hockey_single_entry_counterexample :
  len (entries (Hockey._source (menu (hockey_session 1)))) = 1
  /\ exists k,
      Hockey.show_page 0 (press alice false) (hockey_session 1)
      = (Ok tt,
         {| menu := menu (hockey_session 1);
            sink :=
              sink (hockey_session 1)
              ++ [ResponseEditMessage k
                    (Val [IButton Ref_first_item {| disabled := false |};
                          IButton Ref_back_button {| disabled := false |};
                          IButton Ref_forward_button {| disabled := false |};
                          IButton Ref_last_item {| disabled := false |};
                          IButton Ref_stop_button {| disabled := false |};
                          ISelect
                            {| options :=
                                 Hockey.PlayerPages.select_options (roster 1);
                               select_disabled := false |}])] |}).
Proof. split; [reflexivity |]. eexists. reflexivity. Qed.

(** ** Unknown length and IndexError (C6) *)

(** The feed of two lines asked for page 5. *)
Lemma checked_page_unknown_length_and_index_error_witness :
  (get_max_pages (Destiny._source (menu destiny_feed_session)) = None
   /\ get_max_pages (Hockey._source (menu hockey_feed_session)) = None
   /\ get_page 5 (Destiny._source (menu destiny_feed_session))
      = (Raise IndexError, news)
   /\ get_page 5 (Hockey._source (menu hockey_feed_session))
      = (Raise IndexError, news))
  /\ Destiny.show_checked_page 5 (press alice false) destiny_feed_session
     = (Ok tt, destiny_feed_session)
  /\ Hockey.show_checked_page 5 (press alice false) hockey_feed_session
     = (Ok tt, hockey_feed_session)
  /\ Destiny.show_checked_page 5 (press alice false) destiny_feed_session
     = try_except (Destiny.show_page 5 (press alice false)) IndexError (ret tt)
         destiny_feed_session.
Proof.
  assert (Hnone : get_max_pages (Destiny._source (menu destiny_feed_session))
                  = None) by (vm_compute; reflexivity).
  assert (Hd : get_page 5 (Destiny._source (menu destiny_feed_session))
               = (Raise IndexError, news)) by (vm_compute; reflexivity).
  assert (Hh : get_page 5 (Hockey._source (menu hockey_feed_session))
               = (Raise IndexError, news)) by (vm_compute; reflexivity).
  split; [exact (conj Hnone (conj eq_refl (conj Hd Hh))) |].
  destruct (checked_page_unknown_length_and_index_error
              destiny_feed_session hockey_feed_session 5 (press alice false))
    as (H1 & _ & H3 & H4).
  exact (conj (H3 news Hd) (conj (H4 news Hh) (H1 Hnone))).
Defined.

(** ** The stop button (C7) *)

(** The menus alice started, whose message is [7]. *)
Lemma stop_button_by_menu_witness :
  (Hockey.message (menu (hockey_session 3)) = Some 7
   /\ Hockey.Games.message (menu (games_session [])) = Some 7)
  /\ Destiny.StopButton_callback (press alice true)
       (destiny_session (numbered_pages 3))
     = (Ok tt,
        {| menu := Destiny.set_stopped true
                     (menu (destiny_session (numbered_pages 3)));
           sink := sink (destiny_session (numbered_pages 3))
                   ++ [ResponseEditMessage no_kwargs IsNone] |})
  /\ Hockey.StopButton_callback (press alice true) (hockey_session 3)
     = (Ok tt,
        {| menu := Hockey.set_stopped true (menu (hockey_session 3));
           sink := sink (hockey_session 3) ++ [MessageDelete 7] |}).
Proof.
  assert (Hh : Hockey.message (menu (hockey_session 3)) = Some 7)
    by (vm_compute; reflexivity).
  assert (Hg : Hockey.Games.message (menu (games_session [])) = Some 7)
    by (vm_compute; reflexivity).
  split; [exact (conj Hh Hg) |].
  destruct (stop_button_by_menu
              (destiny_session (numbered_pages 3)) (hockey_session 3)
              (games_session []) (press alice true) Hh Hg)
    as (H1 & _ & H3 & _).
  exact (conj (H1 eq_refl) H3).
Defined.

(** On an ephemeral menu message the stop button of the hockey menu
    deletes the message and sends no edit. *)
Lemma hockey_stop_button_counterexample :
  message_flags_ephemeral (press alice true) = true
  /\ Hockey.StopButton_callback (press alice true) (hockey_session 3)
     = (Ok tt,
        {| menu := Hockey.set_stopped true (menu (hockey_session 3));
           sink := sink (hockey_session 3) ++ [MessageDelete 7] |})
  /\ In (MessageDelete 7)
        (sink (snd (Hockey.StopButton_callback (press alice true)
                      (hockey_session 3))))
  /\ existsb is_edit
       (sink (snd (Hockey.StopButton_callback (press alice true)
                     (hockey_session 3)))) = false.
Proof.
  split; [reflexivity |]. split; [reflexivity |]. split; [| reflexivity].
  vm_compute. right. left. reflexivity.
Qed.
